(** * hayday-chat-system: the conversation routing and escalation engine

    A shallow embedding of the routing logic of [server.js]: the keyword
    matcher ([ChatBotBrain]), the AI fallback ([AIProcessor]), the one-time
    code check ([TelegramManager.verifyAuthCode]) and the HTTP handlers for
    sending, polling, admin code verification, takeover and respond; then
    the handlers for history, the admin poll, code requests, feedback,
    training and the statistics and performance reports.

    Conventions of the model.
    - A JavaScript number that holds a confidence is an exact rational
      ([Qc]); the rounding of IEEE doubles is not modelled.  Timestamps and
      counters are integers ([Z]).
    - A JavaScript string is a [string] of bytes (UTF-8).  [includes] is the
      substring test; [String.prototype.toLowerCase] is a parameter of the
      matcher, and [asciiLower] is the instance used to run examples.
    - A JSON file is modelled by its content; [readJSONFile] answers a
      missing or unreadable file with the default value and writes that
      default, so such a file is the same as one holding the default.
      Writes are taken to succeed.
    - Every call of [Date.now()], [moment()] and [uuidv4()] is an explicit
      argument of the handler that makes it.
    - Request validation by express-validator happens before the handler
      bodies modelled here.  The Telegram notification of the send handler
      catches its own errors and touches no state; it is left out, and so
      is the catch-all of each handler in which no modelled step throws
      (the performance report has one that does, and its catch is kept). *)

From Stdlib Require Import QArith Qcanon Qround Lqa ZArith String Ascii List.
From stdpp Require Import gmap strings list fin_maps numbers.
Import ListNotations.

Local Open Scope Z_scope.
Local Open Scope string_scope.
Local Open Scope list_scope.

(* ===================================================================== *)
(** ** JavaScript values used by the server *)
(* ===================================================================== *)

(** A decimal literal [n/d] as an exact number. *)
Definition num (n : Z) (d : positive) : Qc := Q2Qc (n # d).

Definition Math_min (a b : Qc) : Qc := if decide (a ≤ b)%Qc then a else b.
Definition Math_max (a b : Qc) : Qc := if decide (a ≤ b)%Qc then b else a.

(** [x || d] on numbers: [0] is the falsy number. *)
Definition num_or (x d : Qc) : Qc := if decide (x = 0%Qc) then d else x.

(** [s.includes(sub)]. *)
Fixpoint includes (s sub : string) : bool :=
  if String.prefix sub s then true
  else match s with
       | EmptyString => false
       | String _ s' => includes s' sub
       end.

(** Lower-casing of the ASCII letters; every other byte is kept. *)
Definition lower_ascii (c : ascii) : ascii :=
  let n := nat_of_ascii c in
  if (65 <=? n)%nat && (n <=? 90)%nat then ascii_of_nat (n + 32) else c.

Fixpoint asciiLower (s : string) : string :=
  match s with
  | EmptyString => EmptyString
  | String c s' => String (lower_ascii c) (asciiLower s')
  end.

(* ===================================================================== *)
(** ** ChatBotBrain *)
(* ===================================================================== *)

Record Pattern := mkPattern {
  keywords : list string;
  response : string;
  confidence : Qc;
  usage : Z
}.

#[global] Instance Pattern_eq_dec : EqDecision Pattern.
Proof. solve_decision. Defined.

(** [{ ...pattern, calculatedConfidence: confidence }] *)
Record Matched := mkMatched {
  pattern : Pattern;
  calculatedConfidence : Qc
}.

Record Analysis := mkAnalysis {
  amatch : option Matched;
  aconfidence : Qc;
  shouldEscalate : bool
}.

Record ChatBotBrain := mkBrain {
  knowledgeBase : list Pattern;
  confidenceThreshold : Qc
}.

(** [parseFloat(process.env.AI_CONFIDENCE_THRESHOLD) || 0.7]; [None] is an
    unset or non-numeric variable ([NaN]). *)
Definition thresholdOf (env : option Qc) : Qc :=
  match env with
  | Some t => num_or t (num 7 10)
  | None => num 7 10
  end.

(** The bootstrap patterns of [loadKnowledgeBase].  The page names quoted
    inside the response texts are written with single quotes here. *)
Definition defaultPatterns : list Pattern :=
  [ mkPattern ["merhaba"; "selam"; "hey"; "hi"]
      "Merhaba! HayDay Malzemeleri destek ekibine hoş geldiniz. Size nasıl yardımcı olabilirim?"
      (num 9 10) 0;
    mkPattern ["altın"; "para"; "transfer"]
      "Altın transferi hakkında detaylı bilgi için 'Sorular & İletişim' sayfamızı ziyaret edebilirsiniz. Size yardımcı olmak için buradayım!"
      (num 8 10) 0;
    mkPattern ["fiyat"; "ücret"; "ne kadar"]
      "Ürün fiyatları için 'Ürün Listenizi Oluşturun' sayfasını inceleyebilirsiniz. Güncel fiyatlarımız orada yer almaktadır."
      (num 8 10) 0;
    mkPattern ["depolama"; "ağıl"; "ambar"]
      "Depolama hesaplamaları için özel hesaplayıcımızı kullanabilirsiniz: 'Depolama Hesaplayıcısı' sayfamızı ziyaret edin."
      (num 8 10) 0;
    mkPattern ["makine"; "üretim"; "seviye"]
      "Makine bilgileri ve seviyeleri hakkında 'Makineler' sayfamızdan detaylı bilgi alabilirsiniz."
      (num 8 10) 0 ].

Section Matcher.

(** [String.prototype.toLowerCase]. *)
Variable toLowerCase : string -> string.

(** The inner loop: how many keywords occur in the lower-cased message. *)
Definition keywordScore (lowerMessage : string) (kws : list string) : Z :=
  fold_left
    (fun score keyword =>
       if includes lowerMessage (toLowerCase keyword) then score + 1 else score)
    kws 0.

(** One iteration of the outer loop over [(bestMatch, highestScore)]. *)
Definition scanPattern (lowerMessage : string)
    (st : option Matched * Qc) (p : Pattern) : option Matched * Qc :=
  let score := keywordScore lowerMessage (keywords p) in
  if (0 <? score)%Z then
    let c := (Qc_of_Z score / Qc_of_Z (Z.of_nat (length (keywords p)))
              * confidence p)%Qc in
    if decide (snd st < c)%Qc then (Some (mkMatched p c), c) else st
  else st.

Definition analyzeMessage (brain : ChatBotBrain) (message : string) : Analysis :=
  let lowerMessage := toLowerCase message in
  let st := fold_left (scanPattern lowerMessage) (knowledgeBase brain) (None, 0%Qc) in
  {| amatch := fst st;
     aconfidence := snd st;
     shouldEscalate := bool_decide (snd st < confidenceThreshold brain)%Qc |}.

(** The quantity the matcher ranks patterns by: the share of the
    pattern's keywords found in the message, times the pattern's
    confidence.  (A pattern without keywords has share [0]; the code
    never divides for it.) *)
Definition weightedConfidence (message : string) (p : Pattern) : Qc :=
  (Qc_of_Z (keywordScore (toLowerCase message) (keywords p))
   / Qc_of_Z (Z.of_nat (length (keywords p))) * confidence p)%Qc.

(** The two shapes of the loop state [(bestMatch, highestScore)] after
    the patterns [kb]: nothing taken, no pattern having a positive
    weighted confidence; or the first pattern of greatest weighted
    confidence taken, with that confidence. *)
Definition nothing_matched (message : string) (kb : list Pattern)
    (st : option Matched * Qc) : Prop :=
  st = (None, 0%Qc) ∧ ∀ q, q ∈ kb -> (weightedConfidence message q ≤ 0)%Qc.

Definition first_best (message : string) (kb : list Pattern)
    (st : option Matched * Qc) : Prop :=
  ∃ before p after,
    kb = before ++ p :: after ∧
    st = (Some (mkMatched p (weightedConfidence message p)),
          weightedConfidence message p) ∧
    (0 < weightedConfidence message p)%Qc ∧
    (∀ q, q ∈ before -> (weightedConfidence message q < weightedConfidence message p)%Qc) ∧
    (∀ q, q ∈ after -> (weightedConfidence message q ≤ weightedConfidence message p)%Qc).

End Matcher.



Definition messageKargo : string := "kargo ne zaman gelir".

(** The body of [updatePattern] at the index it found. *)
Definition nudge (feedback : string) (c : Qc) : Qc :=
  if decide (feedback = "positive") then Math_min 1 (c + num 5 100)
  else if decide (feedback = "negative") then Math_max (num 1 10) (c - num 5 100)
  else c.

Definition updateEntry (feedback : string) (p : Pattern) : Pattern :=
  {| keywords := keywords p;
     response := response p;
     confidence := nudge feedback (confidence p);
     usage := usage p + 1 |}.

(** [updatePattern(pattern, feedback)] on the in-memory knowledge base:
    [findIndex] by equal keyword arrays, then the update in place.  The
    result is [None] when no entry was found (nothing is written). *)
Definition updatePattern (kb : list Pattern) (kws : list string) (feedback : string)
  : option (list Pattern) :=
  match list_find (fun p => keywords p = kws) kb with
  | Some (index, p) => Some (<[index := updateEntry feedback p]> kb)
  | None => None
  end.


(** [updatePattern] called once for each feedback of [fs], in turn, for the
    pattern with keywords [kws]. *)
Definition recordUsages (kb : list Pattern) (kws : list string) (fs : list string)
  : list Pattern :=
  fold_left (fun kb feedback => default kb (updatePattern kb kws feedback)) fs kb.

(** The interval the confidence of a pattern is meant to stay in. *)
Definition inRange (c : Qc) : Prop := (num 1 10 ≤ c)%Qc ∧ (c ≤ 1)%Qc.

(* ===================================================================== *)
(** ** AIProcessor *)
(* ===================================================================== *)

(** A [try] body either returns or throws; [catch] recovers. *)
Inductive Try (A : Type) : Type :=
| Return (a : A)
| Throw (e : string).
Arguments Return {A} a.
Arguments Throw {A} e.

#[global] Instance Try_bind : MBind Try := fun A B k m =>
  match m with
  | Return a => k a
  | Throw e => Throw e
  end.

Definition try_catch {A} (body : Try A) (handler : string -> A) : A :=
  match body with
  | Return a => a
  | Throw e => handler e
  end.

(** What [openai.chat.completions.create] resolves to: the contents of
    [choices] and [usage.total_tokens] when present. *)
Record Completion := mkCompletion {
  choices : list string;
  total_tokens : option Z
}.

Record AiResult := mkAiResult {
  airesponse : string;
  aiconfidence : Qc;
  tokensUsed : Z
}.

Definition fallbackText : string :=
  "Üzgünüm, şu anda teknik bir sorun yaşıyorum. Lütfen biraz sonra tekrar deneyin veya Sorular & İletişim sayfamızdan bize ulaşın.".

Definition fallbackResult : AiResult :=
  {| airesponse := fallbackText; aiconfidence := num 3 10; tokensUsed := 0 |}.

(** [completion.choices[0].message.content] *)
Definition firstChoice (c : Completion) : Try string :=
  match choices c with
  | text :: _ => Return text
  | [] => Throw "TypeError: Cannot read properties of undefined"
  end.

(** [completion.usage.total_tokens] *)
Definition usageTokens (c : Completion) : Try Z :=
  match total_tokens c with
  | Some n => Return n
  | None => Throw "TypeError: Cannot read properties of undefined"
  end.

(** [processMessage(message)]; [create] is the awaited call, which throws
    when the promise is rejected. *)
Definition processMessage (create : string -> Try Completion) (message : string)
  : AiResult :=
  try_catch
    (completion ← create message;
     text ← firstChoice completion;
     tokens ← usageTokens completion;
     Return {| airesponse := text; aiconfidence := num 85 100; tokensUsed := tokens |})
    (fun _ => fallbackResult).

(* ===================================================================== *)
(** ** TelegramManager: one-time codes *)
(* ===================================================================== *)

Record AuthData := mkAuthData {
  code : string;
  code_expires : Z
}.

(** [sendAuthCode(telegramId)]: [code] is the six random digits, [now] the
    clock and [delivered] whether the Telegram message went out; the entry
    is stored in either case, valid for five minutes. *)
Definition sendAuthCode (authCodes : gmap string AuthData)
    (telegramId code : string) (now : Z) (delivered : bool)
  : bool * gmap string AuthData :=
  (delivered,
   <[telegramId := {| code := code; code_expires := now + 5 * 60 * 1000 |}]> authCodes).

(** [verifyAuthCode(telegramId, code)] returns the boolean and the map as
    it leaves it; [now] is its [Date.now()]. *)
Definition verifyAuthCode (authCodes : gmap string AuthData)
    (telegramId submitted : string) (now : Z) : bool * gmap string AuthData :=
  match authCodes !! telegramId with
  | None => (false, authCodes)
  | Some authData =>
      if (now >? code_expires authData)%Z then (false, delete telegramId authCodes)
      else if decide (code authData = submitted) then (true, delete telegramId authCodes)
      else (false, authCodes)
  end.

(* ===================================================================== *)
(** ** Plain JavaScript objects used as maps *)
(* ===================================================================== *)

(** The property names every object parsed from JSON inherits from
    [Object.prototype]. *)
Definition objectPrototypeKeys : list string :=
  [ "constructor"; "__proto__"; "hasOwnProperty"; "isPrototypeOf";
    "propertyIsEnumerable"; "toString"; "toLocaleString"; "valueOf";
    "__defineGetter__"; "__defineSetter__"; "__lookupGetter__";
    "__lookupSetter__" ].

(** The outcome of [obj[key]]: an own property (a value the server
    stored), a value inherited from the prototype (truthy, and without any
    of the server's fields), or [undefined]. *)
Inductive JsProp (A : Type) : Type :=
| Own (a : A)
| Inherited
| Undefined.
Arguments Own {A} a.
Arguments Inherited {A}.
Arguments Undefined {A}.

Definition js_get {A} (obj : gmap string A) (key : string) : JsProp A :=
  match obj !! key with
  | Some a => Own a
  | None => if bool_decide (key ∈ objectPrototypeKeys) then Inherited else Undefined
  end.

(** [obj[key] = v]: the name [__proto__], unless it is an own property,
    reaches the inherited setter and creates no property. *)
Definition js_set {A} (obj : gmap string A) (key : string) (v : A) : gmap string A :=
  if decide (key = "__proto__") then
    match obj !! key with
    | Some _ => <[key := v]> obj
    | None => obj
    end
  else <[key := v]> obj.

(** [s.replace(pat, '')]: the first occurrence of [pat] is removed. *)
Fixpoint removeFirst (pat s : string) : string :=
  if String.prefix pat s then String.substring (String.length pat)
                                (String.length s - String.length pat) s
  else match s with
       | EmptyString => EmptyString
       | String c s' => String c (removeFirst pat s')
       end.

(** [req.headers.authorization?.replace('Bearer ', '')], then used as a
    property name: [undefined] becomes the name ["undefined"]. *)
Definition bearerToken (authorization : option string) : string :=
  match authorization with
  | Some h => removeFirst "Bearer " h
  | None => "undefined"
  end.

(* ===================================================================== *)
(** ** The persisted documents and the server state *)
(* ===================================================================== *)

Record Message := mkMessage {
  timestamp : Z;
  clientId : string;
  role : string;
  content : string;
  msg_confidence : option Qc;
  adminId : option string
}.

Record DailyAnalytics := mkDaily {
  total : Z;
  chatbot : Z;
  ai : Z;
  admin : Z
}.

Record Takeover := mkTakeover {
  takeover_timestamp : Z;
  takeover_adminId : option string;
  status : string
}.

Record FeedbackEntry := mkFeedback {
  feedback_messageId : Z;
  feedback_rating : string;
  feedback_comment : option string;
  feedback_timestamp : Z;
  feedback_clientId : option string
}.

(** [analytics.json]: the day buckets, keyed by the formatted date, and
    the [adminTakeovers] object and the [feedback] array when they exist.
    A formatted date ([YYYY-MM-DD]) is never another key of the document
    nor a name inherited from the prototype, so the buckets are a map of
    their own. *)
Record Analytics := mkAnalytics {
  days : gmap string DailyAnalytics;
  adminTakeovers : option (gmap string Takeover);
  feedback : option (list FeedbackEntry)
}.

Record AdminSession := mkSession {
  telegramId : string;
  created : Z;
  expires : Z
}.

Record Server := mkServer {
  chatLogFile : list Message;
  knowledgeBaseFile : list Pattern;
  analyticsFile : Analytics;
  adminSessionsFile : gmap string AdminSession;
  chatBot : ChatBotBrain;
  authCodes : gmap string AuthData
}.

Definition set_chatLogFile (srv : Server) (log : list Message) : Server :=
  mkServer log (knowledgeBaseFile srv) (analyticsFile srv)
           (adminSessionsFile srv) (chatBot srv) (authCodes srv).

Definition set_analyticsFile (srv : Server) (a : Analytics) : Server :=
  mkServer (chatLogFile srv) (knowledgeBaseFile srv) a
           (adminSessionsFile srv) (chatBot srv) (authCodes srv).

Definition set_adminSessionsFile (srv : Server) (s : gmap string AdminSession) : Server :=
  mkServer (chatLogFile srv) (knowledgeBaseFile srv) (analyticsFile srv)
           s (chatBot srv) (authCodes srv).

Definition set_authCodes (srv : Server) (c : gmap string AuthData) : Server :=
  mkServer (chatLogFile srv) (knowledgeBaseFile srv) (analyticsFile srv)
           (adminSessionsFile srv) (chatBot srv) c.

(** The knowledge base in memory and, as [updatePattern] writes it, on disk. *)
Definition set_knowledgeBase (srv : Server) (kb : list Pattern) : Server :=
  mkServer (chatLogFile srv) kb (analyticsFile srv) (adminSessionsFile srv)
           (mkBrain kb (confidenceThreshold (chatBot srv))) (authCodes srv).

(** [new ChatBotBrain()] before its knowledge base is loaded. *)
Definition newChatBotBrain (env : option Qc) : ChatBotBrain :=
  mkBrain [] (thresholdOf env).

(** [loadKnowledgeBase()]: the file's patterns, or the bootstrap patterns,
    written back, when the file has none. *)
Definition loadKnowledgeBase (srv : Server) : Server :=
  match knowledgeBaseFile srv with
  | [] => set_knowledgeBase srv defaultPatterns
  | kb => set_knowledgeBase srv kb
  end.

(** A server whose files are still empty, with the knowledge base [kb]
    loaded. *)
Definition emptyServer (kb : list Pattern) (threshold : Qc) : Server :=
  mkServer [] kb (mkAnalytics ∅ None None) ∅ (mkBrain kb threshold) ∅.

(** A JSON reply: the body of [res.json], or a status with its [error]. *)
Inductive Reply (A : Type) : Type :=
| Ok (body : A)
| Error (http_status : Z) (error : string).
Arguments Ok {A} body.
Arguments Error {A} http_status error.

(** [{ total: 0, chatbot: 0, ai: 0, admin: 0 }] *)
Definition emptyDaily : DailyAnalytics := mkDaily 0 0 0 0.

(** [analytics[today][role] += 1]; the handlers pass the role names
    [chatbot], [ai] and [admin] only. *)

Definition bumpRole (role : string) (b : DailyAnalytics) : DailyAnalytics :=
  if decide (role = "chatbot") then mkDaily (total b) (chatbot b + 1) (ai b) (admin b)
  else if decide (role = "ai") then mkDaily (total b) (chatbot b) (ai b + 1) (admin b)
  else if decide (role = "admin") then mkDaily (total b) (chatbot b) (ai b) (admin b + 1)
  else b.

(** [analytics[today].total += 1] *)
Definition bumpTotal (b : DailyAnalytics) : DailyAnalytics :=
  mkDaily (total b + 1) (chatbot b) (ai b) (admin b).

(** The invariant of a day bucket, and the order in which its counters
    only grow. *)
Definition dailyInvariant (b : DailyAnalytics) : Prop :=
  total b = chatbot b + ai b + admin b
  ∧ 0 <= total b ∧ 0 <= chatbot b ∧ 0 <= ai b ∧ 0 <= admin b.

Definition daily_le (b b' : DailyAnalytics) : Prop :=
  total b <= total b' ∧ chatbot b <= chatbot b' ∧ ai b <= ai b' ∧ admin b <= admin b'.

Definition bucketsOk (a : Analytics) : Prop :=
  ∀ d b, days a !! d = Some b -> dailyInvariant b.

Definition bucketsGrow (a a' : Analytics) : Prop :=
  ∀ d b, days a !! d = Some b -> ∃ b', days a' !! d = Some b' ∧ daily_le b b'.

(** The analytics update shared by the send and respond handlers:
    create the day's bucket when absent, then [total += 1] and
    [[role] += 1]. *)
Definition recordMessage (a : Analytics) (today role : string) : Analytics :=
  let bucket := default emptyDaily (days a !! today) in
  {| days := <[today := bumpRole role (bumpTotal bucket)]> (days a);
     adminTakeovers := adminTakeovers a;
     feedback := feedback a |}.

(* ===================================================================== *)
(** ** The HTTP handlers *)
(* ===================================================================== *)

(** The admin session check shared by the admin handlers:
    [!sessions[token] || sessions[token].expires < Date.now()].
    An inherited value is truthy and its [expires] is [undefined], for
    which the comparison is false. *)
Definition sessionRejected (sessions : gmap string AdminSession)
    (token : string) (now : Z) : bool :=
  match js_get sessions token with
  | Undefined => true
  | Own session => (expires session <? now)%Z
  | Inherited => false
  end.

(** [sessions[token].telegramId] *)
Definition sessionTelegramId (sessions : gmap string AdminSession)
    (token : string) : option string :=
  match js_get sessions token with
  | Own session => Some (telegramId session)
  | _ => None
  end.

Definition greetingText : string :=
  "Merhaba! Ben gerçek bir destek uzmanıyım. Size nasıl yardımcı olabilirim?".

Record SendResponse := mkSendResponse {
  reply : string;
  reply_role : string;
  reply_confidence : Qc;
  reply_timestamp : Z
}.

(** What a send request holds while it awaits [updatePattern] or the AI
    call: its own copy of the chat log with the user message pushed, the
    analysis, and the pattern's response when the bot answers. *)
Record PendingSend := mkPending {
  pending_clientId : string;
  pending_message : string;
  pending_chatLog : list Message;
  pending_analysis : Analysis;
  pending_answer : option string
}.

Record PollResponse := mkPollResponse {
  newMessages : list Message;
  lastTimestamp : Z
}.

(** [parseInt(after) || 0]; [None] is [NaN]. *)
Definition afterTimestampOf (after : option Z) : Z :=
  match after with
  | Some n => if (n =? 0)%Z then 0 else n
  | None => 0
  end.

(** [Math.max(...ts)] for a non-empty [ts], as the poll handler calls it. *)
Definition Math_max_spread (t : Z) (ts : list Z) : Z := fold_left Z.max ts t.

(** GET /api/chat/poll/:clientId, on the chat log it read. *)
Definition pollMessages (chatLog : list Message) (client : string) (after : option Z)
  : PollResponse :=
  let afterTimestamp := afterTimestampOf after in
  let newMessages :=
    filter (fun msg => clientId msg = client ∧ (afterTimestamp < timestamp msg)%Z)
           chatLog in
  {| newMessages := newMessages;
     lastTimestamp :=
       match map timestamp newMessages with
       | t :: ts => Math_max_spread t ts
       | [] => afterTimestamp
       end |}.

Definition chat_poll (srv : Server) (client : string) (after : option Z)
  : Reply PollResponse * Server :=
  (Ok (pollMessages (chatLogFile srv) client after), srv).

Section Handlers.

Variable toLowerCase : string -> string.
(** The awaited [openai.chat.completions.create] call, by user message. *)
Variable create : string -> Try Completion.
(** [process.env.ADMIN_TELEGRAM_ID] *)
Variable ADMIN_TELEGRAM_ID : option string.

(** POST /api/chat/send up to its first suspension: read the log, push
    the user message, analyse, and in the bot branch run [updatePattern]. *)
Definition send_begin (srv : Server) (client message : string) (now : Z)
  : PendingSend * Server :=
  let userMessage := mkMessage now client "user" message None None in
  let chatLog := chatLogFile srv ++ [userMessage] in
  let botAnalysis := analyzeMessage toLowerCase (chatBot srv) message in
  match shouldEscalate botAnalysis, amatch botAnalysis with
  | false, Some m =>
      let srv' :=
        match updatePattern (knowledgeBase (chatBot srv)) (keywords (pattern m)) "positive" with
        | Some kb => set_knowledgeBase srv kb
        | None => srv
        end in
      (mkPending client message chatLog botAnalysis (Some (response (pattern m))), srv')
  | _, _ => (mkPending client message chatLog botAnalysis None, srv)
  end.

(** The rest of the handler: the response and its role, the bot message
    pushed on the request's copy of the log, the log written back, the
    analytics update and the reply.  [now_bot] and [now_reply] are the two
    [Date.now()] readings, [today] the formatted date. *)
Definition send_finish (srv : Server) (p : PendingSend) (now_bot : Z)
    (today : string) (now_reply : Z) : Reply SendResponse * Server :=
  let '(response, role) :=
    match pending_answer p with
    | Some r => (r, "chatbot")
    | None => (airesponse (processMessage create (pending_message p)), "ai")
    end in
  let stored := num_or (aconfidence (pending_analysis p)) (num 85 100) in
  let botMessage :=
    mkMessage now_bot (pending_clientId p) role response (Some stored) None in
  let chatLog := pending_chatLog p ++ [botMessage] in
  let srv1 := set_chatLogFile srv chatLog in
  let srv2 := set_analyticsFile srv1 (recordMessage (analyticsFile srv1) today role) in
  (Ok (mkSendResponse response role stored now_reply), srv2).

(** POST /api/chat/send, run without another request in between. *)
Definition chat_send (srv : Server) (client message : string)
    (now_user now_bot : Z) (today : string) (now_reply : Z)
  : Reply SendResponse * Server :=
  let '(p, srv1) := send_begin srv client message now_user in
  send_finish srv1 p now_bot today now_reply.

(** POST /api/admin/verify-code.  [sessionToken] is the [uuidv4()] value,
    [now] the clock of [verifyAuthCode], [now_created] and [now_expires]
    the two readings in the session record. *)
Definition admin_verify_code (srv : Server) (telegram submitted : string)
    (now : Z) (sessionToken : string) (now_created now_expires : Z)
  : Reply string * Server :=
  if decide (Some telegram = ADMIN_TELEGRAM_ID) then
    let '(isValid, codes) := verifyAuthCode (authCodes srv) telegram submitted now in
    let srv1 := set_authCodes srv codes in
    if isValid then
      let session := mkSession telegram now_created (now_expires + 24 * 60 * 60 * 1000) in
      (Ok sessionToken,
       set_adminSessionsFile srv1 (js_set (adminSessionsFile srv1) sessionToken session))
    else (Error 400 "Invalid or expired code", srv1)
  else (Error 403 "Unauthorized", srv).

(** POST /api/admin/takeover.  [now] is the clock of the session check,
    [now_takeover] and [now_message] those of the two records. *)
Definition admin_takeover (srv : Server) (authorization : option string)
    (conversationId : string) (now now_takeover now_message : Z)
  : Reply string * Server :=
  let token := bearerToken authorization in
  let sessions := adminSessionsFile srv in
  if sessionRejected sessions token now then (Error 401 "Unauthorized", srv)
  else
    let analytics := analyticsFile srv in
    let takeovers := default ∅ (adminTakeovers analytics) in
    let record := mkTakeover now_takeover (sessionTelegramId sessions token) "active" in
    let srv1 := set_analyticsFile srv
                  {| days := days analytics;
                     adminTakeovers := Some (js_set takeovers conversationId record);
                     feedback := feedback analytics |} in
    let adminMessage :=
      mkMessage now_message conversationId "admin" greetingText (Some 1%Qc) None in
    (Ok "Conversation taken over",
     set_chatLogFile srv1 (chatLogFile srv1 ++ [adminMessage])).

(** POST /api/admin/respond; the body of the reply is the timestamp of
    the message. *)
Definition admin_respond (srv : Server) (authorization : option string)
    (conversationId message : string) (now now_message : Z) (today : string)
  : Reply Z * Server :=
  let token := bearerToken authorization in
  let sessions := adminSessionsFile srv in
  if sessionRejected sessions token now then (Error 401 "Unauthorized", srv)
  else
    let adminMessage :=
      mkMessage now_message conversationId "admin" message (Some 1%Qc)
                (sessionTelegramId sessions token) in
    let srv1 := set_chatLogFile srv (chatLogFile srv ++ [adminMessage]) in
    (Ok now_message,
     set_analyticsFile srv1 (recordMessage (analyticsFile srv1) today "admin")).

(** POST /api/chat/feedback.  [messageId] is [parseInt(messageId)], an
    index into the chat log; a bot message's rating goes to [updatePattern]
    under the keywords [['feedback']], and the entry is pushed on
    [analytics.feedback]. *)
Definition chat_feedback (srv : Server) (messageId : Z) (rating : string)
    (comment client : option string) (now : Z) : Reply string * Server :=
  if (0 <=? messageId)%Z && (messageId <? Z.of_nat (length (chatLogFile srv)))%Z then
    let message := chatLogFile srv !! Z.to_nat messageId in
    let srv1 :=
      if bool_decide (role <$> message = Some "chatbot") && negb (bool_decide (rating = ""))
      then match updatePattern (knowledgeBase (chatBot srv)) ["feedback"] rating with
           | Some kb => set_knowledgeBase srv kb
           | None => srv
           end
      else srv in
    let analytics := analyticsFile srv1 in
    let entry := mkFeedback messageId rating comment now client in
    (Ok "Feedback received",
     set_analyticsFile srv1
       {| days := days analytics;
          adminTakeovers := adminTakeovers analytics;
          feedback := Some (default [] (feedback analytics) ++ [entry]) |})
  else (Error 404 "Message not found", srv).

(** *** Interleaved send requests

    The event loop runs one handler segment at a time; a send request is
    suspended between [send_begin] and [send_finish], and segments of
    other requests may run meanwhile. *)
Inductive SendEvent : Type :=
| Begin (request : nat) (client message : string) (now : Z)
| Finish (request : nat) (now_bot : Z) (today : string) (now_reply : Z).

Record Running := mkRunning {
  shared : Server;
  suspended : gmap nat PendingSend
}.

Definition step (r : Running) (e : SendEvent) : Running :=
  match e with
  | Begin id client message now =>
      let '(p, srv) := send_begin (shared r) client message now in
      mkRunning srv (<[id := p]> (suspended r))
  | Finish id now_bot today now_reply =>
      match suspended r !! id with
      | Some p =>
          mkRunning (snd (send_finish (shared r) p now_bot today now_reply))
                    (delete id (suspended r))
      | None => r
      end
  end.

Definition run (srv : Server) (schedule : list SendEvent) : Server :=
  shared (fold_left step schedule (mkRunning srv ∅)).

(** *** Requests run one after the other *)
Inductive Operation : Type :=
| OpSend (client message : string) (now_user now_bot : Z) (today : string) (now_reply : Z)
| OpPoll (client : string) (after : option Z)
| OpFeedback (messageId : Z) (rating : string) (comment client : option string) (now : Z)
| OpVerifyCode (telegram submitted : string) (now : Z) (sessionToken : string)
    (now_created now_expires : Z)
| OpTakeover (authorization : option string) (conversationId : string)
    (now now_takeover now_message : Z)
| OpRespond (authorization : option string) (conversationId message : string)
    (now now_message : Z) (today : string).

Definition perform (srv : Server) (op : Operation) : Server :=
  match op with
  | OpSend client message now_user now_bot today now_reply =>
      snd (chat_send srv client message now_user now_bot today now_reply)
  | OpPoll client after => snd (chat_poll srv client after)
  | OpFeedback messageId rating comment client now =>
      snd (chat_feedback srv messageId rating comment client now)
  | OpVerifyCode telegram submitted now sessionToken now_created now_expires =>
      snd (admin_verify_code srv telegram submitted now sessionToken now_created now_expires)
  | OpTakeover authorization conversationId now now_takeover now_message =>
      snd (admin_takeover srv authorization conversationId now now_takeover now_message)
  | OpRespond authorization conversationId message now now_message today =>
      snd (admin_respond srv authorization conversationId message now now_message today)
  end.

End Handlers.

(* ===================================================================== *)
(** ** The other handlers of the server *)
(* ===================================================================== *)

Definition set_knowledgeBaseFile (srv : Server) (kb : list Pattern) : Server :=
  mkServer (chatLogFile srv) kb (analyticsFile srv) (adminSessionsFile srv)
           (chatBot srv) (authCodes srv).

(** GET /api/chat/history/:clientId *)
Definition chat_history (srv : Server) (client : string)
  : Reply (list Message) * Server :=
  (Ok (filter (fun msg => clientId msg = client) (chatLogFile srv)), srv).

(** GET /api/chat/poll/admin: the poll over all clients, behind the admin
    session check. *)
Definition admin_poll (srv : Server) (authorization : option string)
    (after : option Z) (now : Z) : Reply PollResponse * Server :=
  let token := bearerToken authorization in
  if sessionRejected (adminSessionsFile srv) token now then (Error 401 "Unauthorized", srv)
  else
    let afterTimestamp := afterTimestampOf after in
    let newMessages :=
      filter (fun msg => (afterTimestamp < timestamp msg)%Z) (chatLogFile srv) in
    (Ok {| newMessages := newMessages;
           lastTimestamp :=
             match map timestamp newMessages with
             | t :: ts => Math_max_spread t ts
             | [] => afterTimestamp
             end |}, srv).

(** POST /api/admin/train.  [confidence] is the optional body field, with
    its default 0.8; the new pattern's fields that no handler modelled here
    reads (successRate, createdAt, createdBy, adminId) are not kept.  The
    pattern is pushed on the knowledge base read from the file, the file is
    written, and the brain reloads it.  The reply carries [patternId]. *)
Definition admin_train (srv : Server) (authorization : option string)
    (kws : list string) (answer : string) (confidence : option Qc) (now : Z)
  : Reply Z * Server :=
  let token := bearerToken authorization in
  if sessionRejected (adminSessionsFile srv) token now then (Error 401 "Unauthorized", srv)
  else
    let newPattern := mkPattern kws answer (default (num 8 10) confidence) 0 in
    let knowledgeBase := knowledgeBaseFile srv ++ [newPattern] in
    (Ok (Z.of_nat (length knowledgeBase) - 1),
     loadKnowledgeBase (set_knowledgeBaseFile srv knowledgeBase)).

(** [Math.round] on exact numbers: the nearest integer, halves upwards. *)
Definition Math_round (x : Qc) : Z := Qfloor (x + num 1 2)%Qc.

(** [Math.round((part / whole) * 100)] *)
Definition percentOf (part whole : Z) : Z :=
  Math_round (Qc_of_Z part / Qc_of_Z whole * Qc_of_Z 100)%Qc.

Record RoleDistribution := mkDistribution {
  chatbot_share : Z;
  ai_share : Z;
  admin_share : Z
}.

(** [analytics[day] || { total: 0, chatbot: 0, ai: 0, admin: 0 }] *)
Definition dayStats (a : Analytics) (day : string) : DailyAnalytics :=
  default emptyDaily (days a !! day).

(** The four [+=] of the weekly and monthly loops. *)
Definition addDaily (acc b : DailyAnalytics) : DailyAnalytics :=
  mkDaily (total acc + total b) (chatbot acc + chatbot b) (ai acc + ai b)
          (admin acc + admin b).

Record StatsResponse := mkStatsResponse {
  stats_period : string;
  stats : option DailyAnalytics;
  roleDistribution : option RoleDistribution;
  messageCount : nat;
  stats_timestamp : Z
}.

Record PerformanceResponse := mkPerformance {
  responseTime : Z;
  escalationRate : Z;
  totalMessages : nat;
  activeConnections : nat;
  performance_timestamp : Z
}.

(** The inner loop of the performance handler over one conversation: the
    gap between a message that is not the user's and the user message right
    before it. *)
Fixpoint responseGaps (conv : list Message) : list Z :=
  match conv with
  | [] => []
  | prev :: rest =>
      match rest with
      | [] => []
      | msg :: _ =>
          (if bool_decide (role msg ≠ "user") && bool_decide (role prev = "user")
           then [timestamp msg - timestamp prev] else [])
          ++ responseGaps rest
      end
  end.

(** [recent.forEach(msg => ...)] grouping the messages by [clientId] in an
    object that starts as [{}].  For a client id that is an inherited
    property name, [conversations[msg.clientId]] is truthy without being an
    array, and the call of its [push] throws. *)
Fixpoint groupByClient (msgs : list Message) (conversations : gmap string (list Message))
  : Try (gmap string (list Message)) :=
  match msgs with
  | [] => Return conversations
  | msg :: rest =>
      match js_get conversations (clientId msg) with
      | Undefined => groupByClient rest (<[clientId msg := [msg]]> conversations)
      | Own conv => groupByClient rest (<[clientId msg := conv ++ [msg]]> conversations)
      | Inherited => Throw "TypeError: conversations[msg.clientId].push is not a function"
      end
  end.

(** [chatLog.filter(msg => msg.timestamp > Date.now() - 24h)]: the clock is
    read once for each message, [clock i] for the message at index [i]. *)
Fixpoint filterRecent (clock : nat -> Z) (i : nat) (chatLog : list Message)
  : list Message :=
  match chatLog with
  | [] => []
  | msg :: rest =>
      (if decide (clock i - 24 * 60 * 60 * 1000 < timestamp msg)%Z then [msg] else [])
      ++ filterRecent clock (S i) rest
  end.

(** [responseTimes.reduce((a, b) => a + b, 0)] *)
Definition sumZ (l : list Z) : Z := fold_left Z.add l 0.

(** GET /api/analytics/performance.  [Object.values] enumerates the
    conversations in an order the model takes from the map; only the sum and
    the number of the response times are used.  The process figures (uptime,
    memory) of the reply are left out. *)
Definition analytics_performance (srv : Server) (clock : nat -> Z) (today : string)
    (now_reply : Z) : Reply PerformanceResponse * Server :=
  let chatLog := chatLogFile srv in
  let analytics := analyticsFile srv in
  let recent := filterRecent clock 0 chatLog in
  try_catch
    (conversations ← groupByClient recent ∅;
     let responseTimes := concat (responseGaps <$> (map_to_list conversations).*2) in
     let avgResponseTime :=
       if (0 <? Z.of_nat (length responseTimes))%Z
       then (Qc_of_Z (sumZ responseTimes) / Qc_of_Z (Z.of_nat (length responseTimes)))%Qc
       else 0%Qc in
     let todayStats := dayStats analytics today in
     let escalationRate :=
       if (0 <? total todayStats)%Z
       then percentOf (ai todayStats + admin todayStats) (total todayStats)
       else 0 in
     Return (Ok {| responseTime := Math_round (avgResponseTime / Qc_of_Z 1000)%Qc;
                   escalationRate := escalationRate;
                   totalMessages := length chatLog;
                   activeConnections := size conversations;
                   performance_timestamp := now_reply |}, srv))
    (fun _ => (Error 500 "Could not fetch performance data", srv)).

Section Calendar.

(** [moment] dates by day number: [formatDay] is [format('YYYY-MM-DD')], the
    others are [startOf('week')], [startOf('month')] and [endOf('month')];
    adding a day adds one.  The time of day plays no part: the handler
    formats days and compares them by day. *)
Variable formatDay : Z -> string.
Variable startOfWeek : Z -> Z.
Variable startOfMonth : Z -> Z.
Variable endOfMonth : Z -> Z.

(** [for (let i = 0; i < 7; i++)] over [weekStart.clone().add(i, 'days')]. *)
Definition weeklyStats (a : Analytics) (weekStart : Z) : DailyAnalytics :=
  fold_left (fun weeklyTotal i => addDaily weeklyTotal (dayStats a (formatDay (weekStart + i))))
            (seqZ 0 7) emptyDaily.

(** [while (current.isSameOrBefore(monthEnd, 'day'))], with the number of
    days still to visit as the measure of the loop. *)
Fixpoint monthlyLoop (a : Analytics) (remaining : nat) (current monthEnd : Z)
    (monthlyTotal : DailyAnalytics) : DailyAnalytics :=
  if (current <=? monthEnd)%Z then
    match remaining with
    | O => monthlyTotal
    | S remaining' =>
        monthlyLoop a remaining' (current + 1) monthEnd
                    (addDaily monthlyTotal (dayStats a (formatDay current)))
    end
  else monthlyTotal.

(** The monthly case.  [startOf] and [endOf] change the moment they are
    called on and return it: after [now.startOf('month')] and
    [now.endOf('month')], [monthStart] and [monthEnd] are both the one
    object [now], which holds the end of the month. *)
Definition monthlyStats (a : Analytics) (today : Z) : DailyAnalytics :=
  let now := startOfMonth today in
  let now := endOfMonth now in
  let monthStart := now in
  let monthEnd := now in
  let current := monthStart in
  monthlyLoop a (Z.to_nat (monthEnd - current + 1)) current monthEnd emptyDaily.

(** GET /api/analytics/stats; [period] is the query parameter, [today] the
    day of [moment()]. *)
Definition analytics_stats (srv : Server) (period : option string) (today : Z)
    (now_reply : Z) : Reply StatsResponse * Server :=
  let period := default "daily" period in
  let analytics := analyticsFile srv in
  let stats :=
    if decide (period = "daily") then Some (dayStats analytics (formatDay today))
    else if decide (period = "weekly") then Some (weeklyStats analytics (startOfWeek today))
    else if decide (period = "monthly") then Some (monthlyStats analytics today)
    else None in
  let distribution :=
    match stats with
    | Some s =>
        if (0 <? total s)%Z
        then Some (mkDistribution (percentOf (chatbot s) (total s))
                                  (percentOf (ai s) (total s))
                                  (percentOf (admin s) (total s)))
        else None
    | None => None
    end in
  (Ok (mkStatsResponse period stats distribution (length (chatLogFile srv)) now_reply), srv).

End Calendar.

Section MoreHandlers.

Variable toLowerCase : string -> string.
Variable create : string -> Try Completion.
Variable ADMIN_TELEGRAM_ID : option string.

(** POST /api/admin/request-code.  [code] is the random six-digit code,
    [delivered] the outcome of the Telegram message. *)
Definition admin_request_code (srv : Server) (telegram code : string) (now : Z)
    (delivered : bool) : Reply bool * Server :=
  if decide (Some telegram = ADMIN_TELEGRAM_ID) then
    let '(sent, codes) := sendAuthCode (authCodes srv) telegram code now delivered in
    (Ok sent, set_authCodes srv codes)
  else (Error 403 "Unauthorized", srv).

(** Every request the model knows, and the state it leaves. *)
Inductive Request : Type :=
| Claimed (op : Operation)
| ReqHistory (client : string)
| ReqAdminPoll (authorization : option string) (after : option Z) (now : Z)
| ReqRequestCode (telegram code : string) (now : Z) (delivered : bool)
| ReqTrain (authorization : option string) (kws : list string) (answer : string)
    (confidence : option Qc) (now : Z)
| ReqPerformance (clock : nat -> Z) (today : string) (now_reply : Z)
| ReqLoadKnowledgeBase.

Definition handle (srv : Server) (req : Request) : Server :=
  match req with
  | Claimed op => perform toLowerCase create ADMIN_TELEGRAM_ID srv op
  | ReqHistory client => snd (chat_history srv client)
  | ReqAdminPoll authorization after now => snd (admin_poll srv authorization after now)
  | ReqRequestCode telegram code now delivered =>
      snd (admin_request_code srv telegram code now delivered)
  | ReqTrain authorization kws answer confidence now =>
      snd (admin_train srv authorization kws answer confidence now)
  | ReqPerformance clock today now_reply =>
      snd (analytics_performance srv clock today now_reply)
  | ReqLoadKnowledgeBase => loadKnowledgeBase srv
  end.


End MoreHandlers.

(** Counting the log and the day buckets. *)
Definition countRole (r : string) (log : list Message) : Z :=
  Z.of_nat (length (filter (fun msg => role msg = r) log)).

Definition sumDays (f : DailyAnalytics -> Z) (m : gmap string DailyAnalytics) : Z :=
  map_fold (fun _ b acc => acc + f b) 0 m.

(** The figures of [analytics.json] against the chat log: the bot and AI
    counters count the messages of those roles, every user message has its
    answer, the admin counter counts admin messages other than takeover
    greetings, and the totals are the sums. *)
Definition logAgrees (srv : Server) : Prop :=
  let buckets := days (analyticsFile srv) in
  let log := chatLogFile srv in
  sumDays chatbot buckets = countRole "chatbot" log
  ∧ sumDays ai buckets = countRole "ai" log
  ∧ countRole "user" log = countRole "chatbot" log + countRole "ai" log
  ∧ sumDays admin buckets <= countRole "admin" log
  ∧ sumDays total buckets
    = sumDays chatbot buckets + sumDays ai buckets + sumDays admin buckets.

(** The effect of a request on the log and on the day buckets. *)
Inductive Effect (srv srv' : Server) : Prop :=
| Answered (user bot : Message) (today : string)
    (Hlog : chatLogFile srv' = chatLogFile srv ++ [user; bot])
    (Huser : role user = "user")
    (Hbot : role bot = "chatbot" ∨ role bot = "ai")
    (Hrecorded : analyticsFile srv' = recordMessage (analyticsFile srv) today (role bot))
| Greeted (greeting : Message)
    (Hlog : chatLogFile srv' = chatLogFile srv ++ [greeting])
    (Hrole : role greeting = "admin")
    (Hdays : days (analyticsFile srv') = days (analyticsFile srv))
| Responded (message : Message) (today : string)
    (Hlog : chatLogFile srv' = chatLogFile srv ++ [message])
    (Hrole : role message = "admin")
    (Hrecorded : analyticsFile srv' = recordMessage (analyticsFile srv) today "admin")
| Untouched
    (Hlog : chatLogFile srv' = chatLogFile srv)
    (Hdays : days (analyticsFile srv') = days (analyticsFile srv)).


(** [analytics.adminTakeovers], empty while the field is absent. *)
Definition takeoversOf (srv : Server) : gmap string Takeover :=
  default ∅ (adminTakeovers (analyticsFile srv)).

(** The session token a request stores, if it stores one. *)
Definition issuedToken (req : Request) : option string :=
  match req with
  | Claimed (OpVerifyCode _ _ _ sessionToken _ _) => Some sessionToken
  | _ => None
  end.







(* ===================================================================== *)
(** ** Numbers and strings: basic facts *)
(* ===================================================================== *)

Lemma Qc_of_Z_0 : Qc_of_Z 0 = 0%Qc.
Proof. apply Qc_is_canon. reflexivity. Qed.

Lemma num_or_nonzero (x d : Qc) : x ≠ 0%Qc -> num_or x d = x.
Proof. intros H. unfold num_or. destruct (decide (x = 0%Qc)); [done | reflexivity]. Qed.


Lemma Math_min_le_l (a b : Qc) : (Math_min a b ≤ a)%Qc.
Proof.
  unfold Math_min. destruct (decide (a ≤ b)%Qc) as [H | H].
  - apply Qcle_refl.
  - apply Qclt_le_weak. by apply Qclt_nge.
Qed.

Lemma Math_min_glb (a b c : Qc) : (c ≤ a)%Qc -> (c ≤ b)%Qc -> (c ≤ Math_min a b)%Qc.
Proof. intros Ha Hb. unfold Math_min. by destruct (decide (a ≤ b)%Qc). Qed.

Lemma Math_max_ge_l (a b : Qc) : (a ≤ Math_max a b)%Qc.
Proof.
  unfold Math_max. destruct (decide (a ≤ b)%Qc) as [H | H]; [done | apply Qcle_refl].
Qed.

Lemma Math_max_lub (a b c : Qc) : (a ≤ c)%Qc -> (b ≤ c)%Qc -> (Math_max a b ≤ c)%Qc.
Proof. intros Ha Hb. unfold Math_max. by destruct (decide (a ≤ b)%Qc). Qed.

(** [includes] is the substring relation. *)
Lemma prefix_split (p s : string) :
  String.prefix p s = true <-> exists rest, s = (p ++ rest)%string.
Proof.
  revert s. induction p as [| c p IH]; intros s; simpl.
  - split; [intros _; by exists s | by destruct s].
  - destruct s as [| d s]; simpl.
    + split; [done | intros [rest H]; discriminate].
    + destruct (Ascii.ascii_dec c d) as [-> | Hne].
      * rewrite IH. split; intros [rest H]; exists rest; simpl in *; [by rewrite H | by injection H].
      * split; [done | intros [rest H]; injection H as H _; congruence].
Qed.

Lemma includes_unfold (s sub : string) :
  includes s sub =
  if String.prefix sub s then true
  else match s with
       | EmptyString => false
       | String _ s' => includes s' sub
       end.
Proof. destruct s; reflexivity. Qed.

Lemma includes_spec (s sub : string) :
  includes s sub = true <-> exists before after, s = (before ++ sub ++ after)%string.
Proof.
  induction s as [| c s IH]; rewrite includes_unfold.
  - destruct (String.prefix sub "") eqn:Hp.
    + split; [intros _ | done]. apply prefix_split in Hp as [rest H].
      exists "", rest. exact H.
    + split; [done |]. intros [before [after H]].
      destruct before; [| discriminate].
      assert (String.prefix sub "" = true) by (apply prefix_split; eauto).
      congruence.
  - destruct (String.prefix sub (String c s)) eqn:Hp.
    + split; [intros _ | done]. apply prefix_split in Hp as [rest H].
      exists "", rest. exact H.
    + rewrite IH. split.
      * intros [before [after H]]. exists (String c before), after.
        change (String c before +:+ sub +:+ after)
          with (String c (before +:+ sub +:+ after)). by rewrite H.
      * intros [before [after H]]. destruct before as [| d before].
        -- assert (String.prefix sub (String c s) = true) by (apply prefix_split; eauto).
           congruence.
        -- injection H as _ H. eauto.
Qed.

(* ===================================================================== *)
(** ** The matcher picks the first pattern of greatest weighted confidence *)
(* ===================================================================== *)

Section MatcherFacts.

Variable toLowerCase : string -> string.
Variable message : string.

Let w := weightedConfidence toLowerCase message.
Let scan := scanPattern toLowerCase (toLowerCase message).

Lemma keywordScore_from (lowerMessage : string) (kws : list string) (acc : Z) :
  (acc <= fold_left
     (fun score keyword =>
        if includes lowerMessage (toLowerCase keyword) then score + 1 else score)
     kws acc)%Z.
Proof.
  revert acc. induction kws as [| k kws IH]; intros acc; simpl; [lia |].
  destruct (includes lowerMessage (toLowerCase k)); etrans; [| apply IH | | apply IH]; lia.
Qed.

Lemma keywordScore_nonneg (lowerMessage : string) (kws : list string) :
  (0 <= keywordScore toLowerCase lowerMessage kws)%Z.
Proof. apply keywordScore_from. Qed.


(** The score is the number of keywords that occur in the message. *)
Lemma keywordScore_count (lowerMessage : string) (kws : list string) :
  keywordScore toLowerCase lowerMessage kws
  = Z.of_nat (length (filter (fun k => includes lowerMessage (toLowerCase k) = true) kws)).
Proof.
  unfold keywordScore.
  assert (∀ acc,
            fold_left
              (fun score keyword =>
                 if includes lowerMessage (toLowerCase keyword) then score + 1 else score)
              kws acc
            = (acc + Z.of_nat (length (filter
                 (fun k => includes lowerMessage (toLowerCase k) = true) kws)))%Z) as H.
  { induction kws as [| k kws IH]; intros acc; simpl; [lia |].
    rewrite IH, filter_cons.
    destruct (includes lowerMessage (toLowerCase k)) eqn:Hk.
    - rewrite decide_True by done. simpl. lia.
    - rewrite decide_False by done. lia. }
  by rewrite H.
Qed.

Lemma weighted_score_0 (p : Pattern) :
  keywordScore toLowerCase (toLowerCase message) (keywords p) = 0%Z -> w p = 0%Qc.
Proof.
  intros H. unfold w, weightedConfidence. rewrite H, Qc_of_Z_0.
  unfold Qcdiv. by rewrite !Qcmult_0_l.
Qed.

(** One loop iteration, in terms of the weighted confidence. *)
Lemma scan_weighted (st : option Matched * Qc) (p : Pattern) :
  (0 ≤ snd st)%Qc ->
  scan st p =
  if decide (snd st < w p)%Qc then (Some (mkMatched p (w p)), w p) else st.
Proof.
  intros Hst. unfold scan, scanPattern.
  destruct (0 <? keywordScore toLowerCase (toLowerCase message) (keywords p))%Z eqn:Hs.
  - reflexivity.
  - apply Z.ltb_ge in Hs.
    pose proof (keywordScore_nonneg (toLowerCase message) (keywords p)) as Hn.
    rewrite weighted_score_0 by lia.
    destruct (decide (snd st < 0)%Qc) as [Hlt | _]; [| reflexivity].
    exfalso. by apply Qclt_nge in Hlt.
Qed.

Lemma scan_loop (kb : list Pattern) :
  let st := fold_left scan kb (None, 0%Qc) in
  nothing_matched toLowerCase message kb st ∨ first_best toLowerCase message kb st.
Proof.
  induction kb as [| p kb IH] using rev_ind; simpl.
  - left. split; [reflexivity |]. intros q Hq. by apply elem_of_nil in Hq.
  - rewrite fold_left_app. simpl.
    set (st := fold_left scan kb (None, 0%Qc)) in *. simpl in IH.
    assert (0 ≤ snd st)%Qc as Hst.
    { destruct IH as [[-> _] | (b & p0 & a & _ & -> & Hpos & _)]; simpl.
      - apply Qcle_refl.
      - by apply Qclt_le_weak. }
    rewrite (scan_weighted _ _ Hst).
    destruct (decide (snd st < w p)%Qc) as [Hlt | Hge].
    + right. exists kb, p, []. split; [reflexivity |]. split; [reflexivity |].
      split; [by eapply Qcle_lt_trans |]. split.
      * intros q Hq.
        destruct IH as [[-> Hall] | (b & p0 & a & -> & -> & Hpos & Hb & Ha)];
          simpl in Hlt.
        -- eapply Qcle_lt_trans; [by apply Hall | done].
        -- apply elem_of_app in Hq as [Hq | Hq].
           ++ eapply Qclt_trans; [by apply Hb | done].
           ++ apply elem_of_cons in Hq as [-> | Hq]; [done |].
              eapply Qcle_lt_trans; [by apply Ha | done].
      * intros q Hq. by apply elem_of_nil in Hq.
    + apply Qcle_ngt in Hge.
      destruct IH as [[Hst0 Hall] | (b & p0 & a & Hkb & Hst0 & Hpos & Hb & Ha)].
      * left. split; [done |]. intros q Hq.
        apply elem_of_app in Hq as [Hq | Hq]; [by apply Hall |].
        apply list_elem_of_singleton in Hq as ->. by rewrite Hst0 in Hge.
      * right. exists b, p0, (a ++ [p]). split; [by rewrite Hkb, <- app_assoc |].
        split; [done |]. split; [done |]. split; [done |].
        intros q Hq. apply elem_of_app in Hq as [Hq | Hq]; [by apply Ha |].
        apply list_elem_of_singleton in Hq as ->. by rewrite Hst0 in Hge.
Qed.

End MatcherFacts.

Lemma analyzeMessage_cases (toLowerCase : string -> string)
    (brain : ChatBotBrain) (message : string) :
  let r := analyzeMessage toLowerCase brain message in
  nothing_matched toLowerCase message (knowledgeBase brain) (amatch r, aconfidence r)
  ∨ first_best toLowerCase message (knowledgeBase brain) (amatch r, aconfidence r).
Proof.
  simpl. pose proof (scan_loop toLowerCase message (knowledgeBase brain)) as H.
  simpl in H. by rewrite <- surjective_pairing.
Qed.

Lemma shouldEscalate_iff (toLowerCase : string -> string)
    (brain : ChatBotBrain) (message : string) :
  let r := analyzeMessage toLowerCase brain message in
  shouldEscalate r = true <-> (aconfidence r < confidenceThreshold brain)%Qc.
Proof. simpl. apply bool_decide_eq_true. Qed.


(* ===================================================================== *)
(** ** The send handler, branch by branch *)
(* ===================================================================== *)

Section SendFacts.

Variable toLowerCase : string -> string.
Variable create : string -> Try Completion.

(** The bot answers: the analysis does not escalate and holds a match. *)
Lemma chat_send_bot (srv : Server) (client message : string)
    (now_user now_bot : Z) (today : string) (now_reply : Z) (m : Matched) :
  let r := analyzeMessage toLowerCase (chatBot srv) message in
  shouldEscalate r = false ->
  amatch r = Some m ->
  ∃ srv',
    chat_send toLowerCase create srv client message now_user now_bot today now_reply
    = (Ok (mkSendResponse (response (pattern m)) "chatbot"
             (num_or (aconfidence r) (num 85 100)) now_reply), srv')
    ∧ list.last (chatLogFile srv')
      = Some (mkMessage now_bot client "chatbot" (response (pattern m))
                (Some (num_or (aconfidence r) (num 85 100))) None).
Proof.
  intros r Hesc Hm. unfold chat_send, send_begin. fold r. rewrite Hesc, Hm.
  unfold send_finish. simpl. eexists. split; [reflexivity |].
  simpl. apply last_snoc.
Qed.

(** The AI answers: in every other case. *)
Lemma chat_send_ai (srv : Server) (client message : string)
    (now_user now_bot : Z) (today : string) (now_reply : Z) :
  let r := analyzeMessage toLowerCase (chatBot srv) message in
  shouldEscalate r = true ∨ amatch r = None ->
  ∃ srv',
    chat_send toLowerCase create srv client message now_user now_bot today now_reply
    = (Ok (mkSendResponse (airesponse (processMessage create message)) "ai"
             (num_or (aconfidence r) (num 85 100)) now_reply), srv')
    ∧ list.last (chatLogFile srv')
      = Some (mkMessage now_bot client "ai" (airesponse (processMessage create message))
                (Some (num_or (aconfidence r) (num 85 100))) None).
Proof.
  intros r H. unfold chat_send, send_begin. fold r.
  assert (∃ srv1,
    (match shouldEscalate r, amatch r with
     | false, Some m =>
         (mkPending client message
            (chatLogFile srv ++ [mkMessage now_user client "user" message None None])
            r (Some (response (pattern m))),
          match updatePattern (knowledgeBase (chatBot srv)) (keywords (pattern m)) "positive" with
          | Some kb => set_knowledgeBase srv kb
          | None => srv
          end)
     | _, _ =>
         (mkPending client message
            (chatLogFile srv ++ [mkMessage now_user client "user" message None None])
            r None, srv)
     end)
    = (mkPending client message
         (chatLogFile srv ++ [mkMessage now_user client "user" message None None])
         r None, srv1)) as [srv1 ->].
  { destruct H as [-> | ->]; [by eexists |].
    destruct (shouldEscalate r); by eexists. }
  unfold send_finish. simpl. eexists. split; [reflexivity |].
  simpl. apply last_snoc.
Qed.

End SendFacts.

(* ===================================================================== *)
(** ** Knowledge Matcher: the best match and the escalation decision *)
(* ===================================================================== *)




(* ===================================================================== *)
(** ** Knowledge Matcher: nothing matches *)
(* ===================================================================== *)






(* ===================================================================== *)
(** ** Sync Gateway: polling *)
(* ===================================================================== *)





(* ===================================================================== *)
(** ** Knowledge Matcher: feedback keeps the confidence in range *)
(* ===================================================================== *)

Lemma nudge_inRange (feedback : string) (c : Qc) : inRange c -> inRange (nudge feedback c).
Proof.
  intros [Hlo Hhi]. unfold nudge.
  assert (num 1 10 ≤ 1)%Qc as H1 by (vm_compute; discriminate).
  assert (0 ≤ num 5 100)%Qc as H5 by (vm_compute; discriminate).
  destruct (decide (feedback = "positive")); [| destruct (decide (feedback = "negative"))].
  - split; [| apply Math_min_le_l].
    apply Math_min_glb; [exact H1 |].
    rewrite <- (Qcplus_0_r (num 1 10)). by apply Qcplus_le_compat.
  - split; [apply Math_max_ge_l |].
    apply Math_max_lub; [exact H1 |].
    rewrite <- (Qcplus_0_r 1). unfold Qcminus. apply Qcplus_le_compat; [exact Hhi |].
    vm_compute. discriminate.
  - by split.
Qed.

Lemma updatePattern_found (kb : list Pattern) (kws : list string) (feedback : string)
    (i : nat) (p : Pattern) :
  list_find (fun p => keywords p = kws) kb = Some (i, p) ->
  updatePattern kb kws feedback = Some (<[i := updateEntry feedback p]> kb)
  ∧ list_find (fun p => keywords p = kws) (<[i := updateEntry feedback p]> kb)
    = Some (i, updateEntry feedback p).
Proof.
  intros Hfind. unfold updatePattern. rewrite Hfind. split; [reflexivity |].
  apply list_find_Some in Hfind as (Hi & Hk & Hbefore).
  apply list_find_Some. split; [| split].
  - apply list_lookup_insert_eq. by eapply lookup_lt_Some.
  - exact Hk.
  - intros j y Hj Hlt. rewrite list_lookup_insert_ne in Hj by lia.
    by eapply Hbefore.
Qed.

Lemma recordUsages_found (fs : list string) (kb : list Pattern) (kws : list string)
    (i : nat) (p : Pattern) :
  list_find (fun p => keywords p = kws) kb = Some (i, p) ->
  ∃ p',
    list_find (fun p => keywords p = kws) (recordUsages kb kws fs) = Some (i, p')
    ∧ confidence p' = fold_left (fun c feedback => nudge feedback c) fs (confidence p)
    ∧ usage p' = (usage p + Z.of_nat (length fs))%Z
    ∧ response p' = response p.
Proof.
  revert kb p. induction fs as [| f fs IH]; intros kb p Hfind.
  - exists p. simpl. split; [done |]. split; [done |]. split; [lia | done].
  - destruct (updatePattern_found kb kws f i p Hfind) as [Hup Hfind'].
    unfold recordUsages. simpl. rewrite Hup. simpl.
    destruct (IH _ _ Hfind') as (p' & H1 & H2 & H3 & H4).
    exists p'. split; [exact H1 |]. split; [exact H2 |].
    split; [rewrite H3; simpl; lia | exact H4].
Qed.

(** C6.  A pattern whose confidence lies in [0.1, 1.0] keeps a confidence
    in [0.1, 1.0] under [updatePattern] applied for any finite sequence of
    feedback values: positive feedback adds 0.05 and clamps at 1.0 from
    above, negative feedback subtracts 0.05 and clamps at 0.1 from below,
    and any other feedback, such as neutral, leaves the confidence as it
    is. *)
Theorem updatePattern_confidence_inRange
    (kb : list Pattern) (kws : list string) (fs : list string) (i : nat) (p : Pattern)
    (Hfound : list_find (fun p => keywords p = kws) kb = Some (i, p))
    (Hrange : inRange (confidence p)) :
  (∃ p', recordUsages kb kws fs !! i = Some p'
         ∧ keywords p' = kws
         ∧ inRange (confidence p')
         ∧ confidence p' = fold_left (fun c feedback => nudge feedback c) fs (confidence p))
  ∧ (∀ c, nudge "positive" c = Math_min 1 (c + num 5 100)
          ∧ nudge "negative" c = Math_max (num 1 10) (c - num 5 100)
          ∧ nudge "neutral" c = c)
  ∧ (∀ feedback,
       updatePattern kb kws feedback
       = Some (<[i := mkPattern (keywords p) (response p)
                        (nudge feedback (confidence p)) (usage p + 1)]> kb)).
Proof.
  split; [| split].
  - destruct (recordUsages_found fs kb kws i p Hfound) as (p' & Hfind & Hconf & _).
    apply list_find_Some in Hfind as (Hi & Hk & _).
    exists p'. split; [exact Hi |]. split; [exact Hk |]. split; [| exact Hconf].
    rewrite Hconf. clear -Hrange. revert Hrange. generalize (confidence p).
    induction fs as [| f fs IH]; intros c Hc; simpl; [exact Hc |].
    by apply IH, nudge_inRange.
  - intros c. by repeat split.
  - intros feedback. exact (proj1 (updatePattern_found kb kws feedback i p Hfound)).
Qed.

Lemma updatePattern_confidence_inRange_witness :
  ∃ p', recordUsages defaultPatterns ["merhaba"; "selam"; "hey"; "hi"]
          ["positive"; "positive"; "positive"; "neutral"; "negative"] !! 0%nat = Some p'
        ∧ inRange (confidence p').
Proof.
  destruct (updatePattern_confidence_inRange defaultPatterns
              ["merhaba"; "selam"; "hey"; "hi"]
              ["positive"; "positive"; "positive"; "neutral"; "negative"] 0
              (mkPattern ["merhaba"; "selam"; "hey"; "hi"]
                 "Merhaba! HayDay Malzemeleri destek ekibine hoş geldiniz. Size nasıl yardımcı olabilirim?"
                 (num 9 10) 0))
    as [(p' & Hi & _ & Hr & _) _].
  - reflexivity.
  - split; vm_compute; discriminate.
  - exists p'. by split.
Defined.

Lemma recordUsages_not_found (fs : list string) (kb : list Pattern) (kws : list string) :
  list_find (fun p => keywords p = kws) kb = None -> recordUsages kb kws fs = kb.
Proof.
  intros Hnone. unfold recordUsages.
  induction fs as [| f fs IH]; simpl; [reflexivity |].
  unfold updatePattern at 2. rewrite Hnone. simpl. exact IH.
Qed.

(* ===================================================================== *)
(** ** Escalation Processor: failures end in the fallback reply *)
(* ===================================================================== *)

Lemma processMessage_malformed (create : string -> Try Completion) (message : string)
    (c : Completion) :
  create message = Return c ->
  choices c = [] ∨ total_tokens c = None ->
  processMessage create message = fallbackResult.
Proof.
  intros Hc Hbad. unfold processMessage. rewrite Hc. simpl.
  unfold firstChoice, usageTokens.
  destruct (choices c) as [| text rest]; [reflexivity |].
  destruct Hbad as [Hbad | Hbad]; [discriminate |]. by rewrite Hbad.
Qed.

Lemma processMessage_completed (create : string -> Try Completion) (message : string)
    (text : string) (rest : list string) (n : Z) :
  create message = Return (mkCompletion (text :: rest) (Some n)) ->
  processMessage create message = mkAiResult text (num 85 100) n.
Proof. intros Hc. unfold processMessage. by rewrite Hc. Qed.

(** The send handler always replies, as the bot or as the AI. *)
Lemma chat_send_replies (toLowerCase : string -> string)
    (create : string -> Try Completion) (srv : Server) (client message : string)
    (now_user now_bot : Z) (today : string) (now_reply : Z) :
  ∃ resp srv',
    chat_send toLowerCase create srv client message now_user now_bot today now_reply
    = (Ok resp, srv')
    ∧ (reply_role resp = "chatbot" ∨
       reply_role resp = "ai" ∧ reply resp = airesponse (processMessage create message)).
Proof.
  destruct (shouldEscalate (analyzeMessage toLowerCase (chatBot srv) message)) eqn:Hesc.
  - destruct (chat_send_ai toLowerCase create srv client message
                now_user now_bot today now_reply) as (srv' & Hsend & _); [by left |].
    eexists _, srv'. split; [exact Hsend |]. right. by split.
  - destruct (amatch (analyzeMessage toLowerCase (chatBot srv) message)) as [m |] eqn:Hm.
    + destruct (chat_send_bot toLowerCase create srv client message
                  now_user now_bot today now_reply m Hesc Hm) as (srv' & Hsend & _).
      eexists _, srv'. split; [exact Hsend |]. by left.
    + destruct (chat_send_ai toLowerCase create srv client message
                  now_user now_bot today now_reply) as (srv' & Hsend & _); [by right |].
      eexists _, srv'. split; [exact Hsend |]. right. by split.
Qed.

(** C5.  When the generative-AI call fails, for whatever reason,
    [processMessage] returns the fixed apology with confidence 0.3 and
    throws nothing; the send handler then still answers with a reply text,
    the apology whenever the AI tier was the one to answer. *)
Theorem processMessage_fallback
    (create : string -> Try Completion) (message : string) (reason : string)
    (Hfail : create message = Throw reason) :
  processMessage create message = fallbackResult
  ∧ airesponse fallbackResult = fallbackText
  ∧ aiconfidence fallbackResult = num 3 10
  ∧ ∀ toLowerCase srv client now_user now_bot today now_reply,
      ∃ resp srv',
        chat_send toLowerCase create srv client message now_user now_bot today now_reply
        = (Ok resp, srv')
        ∧ (reply_role resp = "chatbot" ∨
           reply_role resp = "ai" ∧ reply resp = fallbackText).
Proof.
  assert (processMessage create message = fallbackResult) as Hfb.
  { unfold processMessage. by rewrite Hfail. }
  split; [exact Hfb |]. split; [reflexivity |]. split; [reflexivity |].
  intros toLowerCase srv client now_user now_bot today now_reply.
  destruct (chat_send_replies toLowerCase create srv client message
              now_user now_bot today now_reply) as (resp & srv' & Hsend & Hrole).
  exists resp, srv'. split; [exact Hsend |].
  destruct Hrole as [Hbot | [Hai Hreply]]; [by left |].
  right. split; [exact Hai |]. by rewrite Hreply, Hfb.
Qed.

Lemma processMessage_fallback_witness :
  processMessage (fun _ => Throw "ETIMEDOUT") messageKargo = fallbackResult
  ∧ ∃ resp srv',
      chat_send asciiLower (fun _ => Throw "ETIMEDOUT")
                (emptyServer defaultPatterns (num 7 10)) "c1" messageKargo
                1 2 "2024-05-01" 3
      = (Ok resp, srv')
      ∧ (reply_role resp = "chatbot" ∨
         reply_role resp = "ai" ∧ reply resp = fallbackText).
Proof.
  destruct (processMessage_fallback (fun _ => Throw "ETIMEDOUT") messageKargo
              "ETIMEDOUT" eq_refl) as (Hfb & _ & _ & Hsend).
  split; [exact Hfb |]. apply Hsend.
Defined.

(* ===================================================================== *)
(** ** The confidence a send request stores and returns *)
(* ===================================================================== *)



(* ===================================================================== *)
(** ** Analytics Aggregator: the day buckets *)
(* ===================================================================== *)

Lemma daily_le_refl (b : DailyAnalytics) : daily_le b b.
Proof. unfold daily_le. lia. Qed.

Lemma bucketsGrow_refl (a : Analytics) : bucketsGrow a a.
Proof. intros d b Hb. exists b. split; [done | apply daily_le_refl]. Qed.

Lemma bump_counted (role : string) (b : DailyAnalytics) :
  role = "chatbot" ∨ role = "ai" ∨ role = "admin" ->
  (dailyInvariant b -> dailyInvariant (bumpRole role (bumpTotal b)))
  ∧ daily_le b (bumpRole role (bumpTotal b)).
Proof.
  intros [-> | [-> | ->]]; unfold dailyInvariant, daily_le; simpl; lia.
Qed.

Lemma emptyDaily_ok : dailyInvariant emptyDaily.
Proof. unfold dailyInvariant. simpl. lia. Qed.

Lemma recordMessage_ok (a : Analytics) (today role : string) :
  role = "chatbot" ∨ role = "ai" ∨ role = "admin" ->
  (bucketsOk a -> bucketsOk (recordMessage a today role))
  ∧ bucketsGrow a (recordMessage a today role).
Proof.
  intros Hrole. split.
  - intros Hok d b. unfold recordMessage. simpl.
    destruct (decide (today = d)) as [-> | Hne].
    + rewrite lookup_insert_eq. intros [= <-].
      apply (bump_counted role _ Hrole).
      destruct (days a !! d) as [b0 |] eqn:Hd; simpl; [by eapply Hok | apply emptyDaily_ok].
    + rewrite lookup_insert_ne by done. apply Hok.
  - intros d b Hb. unfold recordMessage. simpl.
    destruct (decide (today = d)) as [-> | Hne].
    + rewrite lookup_insert_eq, Hb. simpl. eexists. split; [reflexivity |].
      apply (bump_counted role b Hrole).
    + rewrite lookup_insert_ne by done. exists b. split; [done | apply daily_le_refl].
Qed.

Section AnalyticsFacts.

Variable toLowerCase : string -> string.
Variable create : string -> Try Completion.
Variable ADMIN_TELEGRAM_ID : option string.

Lemma chat_send_analytics (srv : Server) (client message : string)
    (now_user now_bot : Z) (today : string) (now_reply : Z) :
  ∃ role,
    (role = "chatbot" ∨ role = "ai")
    ∧ analyticsFile
        (snd (chat_send toLowerCase create srv client message now_user now_bot today now_reply))
      = recordMessage (analyticsFile srv) today role.
Proof.
  unfold chat_send, send_begin.
  destruct (shouldEscalate (analyzeMessage toLowerCase (chatBot srv) message));
    [exists "ai"; split; [by right | reflexivity] |].
  destruct (amatch (analyzeMessage toLowerCase (chatBot srv) message)) as [m |];
    [| exists "ai"; split; [by right | reflexivity]].
  exists "chatbot". split; [by left |].
  by destruct (updatePattern (knowledgeBase (chatBot srv)) (keywords (pattern m)) "positive").
Qed.

(** What each operation does to [analytics.json]: nothing to the day
    buckets, or one message recorded for a tier. *)
Lemma perform_analytics (srv : Server) (op : Operation) :
  days (analyticsFile (perform toLowerCase create ADMIN_TELEGRAM_ID srv op))
  = days (analyticsFile srv)
  ∨ ∃ today role,
      (role = "chatbot" ∨ role = "ai" ∨ role = "admin")
      ∧ analyticsFile (perform toLowerCase create ADMIN_TELEGRAM_ID srv op)
        = recordMessage (analyticsFile srv) today role.
Proof.
  destruct op; simpl.
  - right. destruct (chat_send_analytics srv client message now_user now_bot today now_reply)
      as (role & Hrole & Heq).
    exists today, role. split; [tauto | exact Heq].
  - by left.
  - left. unfold chat_feedback.
    destruct ((0 <=? messageId)%Z && (messageId <? Z.of_nat (length (chatLogFile srv)))%Z);
      [| reflexivity].
    simpl.
    destruct (bool_decide (role <$> chatLogFile srv !! Z.to_nat messageId = Some "chatbot")
              && negb (bool_decide (rating = ""))); [| reflexivity].
    by destruct (updatePattern (knowledgeBase (chatBot srv)) ["feedback"] rating).
  - left. unfold admin_verify_code.
    destruct (decide (Some telegram = ADMIN_TELEGRAM_ID)); [| reflexivity].
    destruct (verifyAuthCode (authCodes srv) telegram submitted now) as [[|] codes];
      reflexivity.
  - left. unfold admin_takeover.
    by destruct (sessionRejected (adminSessionsFile srv) (bearerToken authorization) now).
  - unfold admin_respond.
    destruct (sessionRejected (adminSessionsFile srv) (bearerToken authorization) now);
      [by left |].
    right. exists today, "admin". split; [tauto | reflexivity].
Qed.

End AnalyticsFacts.

(** C10.  Every day bucket satisfies [total = chatbot + ai + admin] with
    non-negative counters: each operation keeps that true of all buckets,
    a bucket it creates included, so it holds in every state reached from
    the empty files; and no operation decreases a counter. *)
Theorem analytics_buckets_invariant
    (toLowerCase : string -> string) (create : string -> Try Completion)
    (ADMIN_TELEGRAM_ID : option string) :
  let perform := perform toLowerCase create ADMIN_TELEGRAM_ID in
  (∀ srv op, bucketsOk (analyticsFile srv) -> bucketsOk (analyticsFile (perform srv op)))
  ∧ (∀ srv op, bucketsGrow (analyticsFile srv) (analyticsFile (perform srv op)))
  ∧ (∀ kb threshold ops,
       bucketsOk (analyticsFile (fold_left perform ops (emptyServer kb threshold))))
  ∧ (∀ srv client message now_user now_bot today now_reply,
       ∃ b, days (analyticsFile
                    (perform srv (OpSend client message now_user now_bot today now_reply)))
            !! today = Some b
            ∧ total b = total (default emptyDaily (days (analyticsFile srv) !! today)) + 1)
  ∧ (∀ srv authorization conversationId message now now_message today,
       sessionRejected (adminSessionsFile srv) (bearerToken authorization) now = false ->
       ∃ b, days (analyticsFile
                    (perform srv (OpRespond authorization conversationId message
                                    now now_message today)))
            !! today = Some b
            ∧ total b = total (default emptyDaily (days (analyticsFile srv) !! today)) + 1
            ∧ admin b = admin (default emptyDaily (days (analyticsFile srv) !! today)) + 1).
Proof.
  intros perform'.
  assert (∀ srv op, bucketsOk (analyticsFile srv) ->
                    bucketsOk (analyticsFile (perform' srv op))) as Hkeep.
  { intros srv op Hok.
    destruct (perform_analytics toLowerCase create ADMIN_TELEGRAM_ID srv op)
      as [Hsame | (today & role & Hrole & Heq)].
    - intros d b. unfold perform'. rewrite Hsame. apply Hok.
    - unfold perform'. rewrite Heq. by apply recordMessage_ok. }
  split; [exact Hkeep |]. split; [| split; [| split]].
  - intros srv op.
    destruct (perform_analytics toLowerCase create ADMIN_TELEGRAM_ID srv op)
      as [Hsame | (today & role & Hrole & Heq)].
    + intros d b Hb. exists b. unfold perform'. rewrite Hsame.
      split; [done | apply daily_le_refl].
    + unfold perform'. rewrite Heq. by apply recordMessage_ok.
  - intros kb threshold ops.
    assert (bucketsOk (analyticsFile (emptyServer kb threshold))) as Hinit.
    { intros d b. simpl. by rewrite lookup_empty. }
    revert Hinit. generalize (emptyServer kb threshold).
    induction ops as [| op ops IH]; intros srv Hok; simpl; [exact Hok |].
    by apply IH, Hkeep.
  - intros srv client message now_user now_bot today now_reply.
    unfold perform'. simpl.
    destruct (chat_send_analytics toLowerCase create srv client message
                now_user now_bot today now_reply) as (role & Hrole & ->).
    unfold recordMessage. simpl. rewrite lookup_insert_eq. eexists. split; [reflexivity |].
    by destruct Hrole as [-> | ->].
  - intros srv authorization conversationId message now now_message today Hvalid.
    unfold perform'. simpl. unfold admin_respond. rewrite Hvalid. simpl.
    rewrite lookup_insert_eq. eexists. split; [reflexivity |]. by split.
Qed.

Lemma analytics_buckets_invariant_witness :
  let srv :=
    perform asciiLower (fun _ => Throw "ETIMEDOUT") (Some "42")
            (emptyServer defaultPatterns (num 7 10))
            (OpSend "c1" messageKargo 1 2 "2024-05-01" 3) in
  bucketsOk (analyticsFile srv)
  ∧ days (analyticsFile srv) !! "2024-05-01" = Some (mkDaily 1 0 1 0).
Proof.
  intros srv. split; [| reflexivity].
  destruct (analytics_buckets_invariant asciiLower (fun _ => Throw "ETIMEDOUT") (Some "42"))
    as (Hkeep & _).
  apply Hkeep. intros d b. simpl. by rewrite lookup_empty.
Defined.

(* ===================================================================== *)
(** ** Admin Session Authority: verifying a one-time code *)
(* ===================================================================== *)

Lemma set_authCodes_same (srv : Server) : set_authCodes srv (authCodes srv) = srv.
Proof. by destruct srv. Qed.

Lemma verifyAuthCode_cases (codes : gmap string AuthData) (telegram submitted : string)
    (now : Z) :
  match codes !! telegram with
  | None => verifyAuthCode codes telegram submitted now = (false, codes)
  | Some d =>
      if decide (code_expires d < now)%Z
      then verifyAuthCode codes telegram submitted now = (false, delete telegram codes)
      else if decide (code d = submitted)
           then verifyAuthCode codes telegram submitted now = (true, delete telegram codes)
           else verifyAuthCode codes telegram submitted now = (false, codes)
  end.
Proof.
  unfold verifyAuthCode. destruct (codes !! telegram) as [d |]; [| reflexivity].
  destruct (decide (code_expires d < now)%Z) as [Hlt | Hge].
  - rewrite Z.gtb_ltb. apply Z.ltb_lt in Hlt. by rewrite Hlt.
  - rewrite Z.gtb_ltb. apply Z.ltb_nlt in Hge. rewrite Hge.
    by destruct (decide (code d = submitted)).
Qed.

(** C3, as the code has it.  [verifyCode] fails when no code is pending,
    when the pending code's five-minute expiry has passed (the pending code
    is deleted then) and when the pending code differs from the submitted
    one, each time with the one reply "Invalid or expired code" (HTTP 400);
    a code submitted six minutes after it was requested fails so.  On
    success the pending code is deleted, so that a second verification with
    the same code fails, and the reply carries the newly generated session
    token, stored with an expiry of 24 hours. *)
Theorem admin_verify_code_outcomes
    (adminIdentity : string) (srv : Server) (submitted : string) (now : Z)
    (sessionToken : string) (now_created now_expires : Z) :
  let verify := admin_verify_code (Some adminIdentity) in
  let result := verify srv adminIdentity submitted now sessionToken now_created now_expires in
  let failure : Reply string := Error 400 "Invalid or expired code" in
  (authCodes srv !! adminIdentity = None -> result = (failure, srv))
  ∧ (∀ d, authCodes srv !! adminIdentity = Some d -> (code_expires d < now)%Z ->
       result = (failure, set_authCodes srv (delete adminIdentity (authCodes srv))))
  ∧ (∀ d, authCodes srv !! adminIdentity = Some d -> (now <= code_expires d)%Z ->
       code d ≠ submitted ->
       result = (failure, srv))
  ∧ (∀ d, authCodes srv !! adminIdentity = Some d -> (now <= code_expires d)%Z ->
       code d = submitted ->
       ∃ srv',
         result = (Ok sessionToken, srv')
         ∧ authCodes srv' !! adminIdentity = None
         ∧ adminSessionsFile srv'
           = js_set (adminSessionsFile srv) sessionToken
               (mkSession adminIdentity now_created (now_expires + 24 * 60 * 60 * 1000))
         ∧ ∀ now' sessionToken' now_created' now_expires',
             verify srv' adminIdentity submitted now' sessionToken' now_created' now_expires'
             = (failure, srv'))
  ∧ (∀ issued requested,
       authCodes srv !! adminIdentity
       = snd (sendAuthCode issued adminIdentity submitted requested true) !! adminIdentity ->
       now = (requested + 6 * 60 * 1000)%Z ->
       result = (failure, set_authCodes srv (delete adminIdentity (authCodes srv)))).
Proof.
  intros verify result failure.
  pose proof (verifyAuthCode_cases (authCodes srv) adminIdentity submitted now) as Hcases.
  assert (∀ d, authCodes srv !! adminIdentity = Some d -> (code_expires d < now)%Z ->
            result = (failure, set_authCodes srv (delete adminIdentity (authCodes srv))))
    as Hexpired.
  { intros d Hd Hlt. rewrite Hd in Hcases.
    destruct (decide (code_expires d < now)%Z); [| lia].
    unfold result, verify, admin_verify_code.
    destruct (decide (Some adminIdentity = Some adminIdentity)); [| done].
    by rewrite Hcases. }
  split; [| split; [exact Hexpired |]; split; [| split]].
  - intros Hnone. rewrite Hnone in Hcases.
    unfold result, verify, admin_verify_code.
    destruct (decide (Some adminIdentity = Some adminIdentity)); [| done].
    by rewrite Hcases, set_authCodes_same.
  - intros d Hd Hge Hne. rewrite Hd in Hcases.
    destruct (decide (code_expires d < now)%Z); [lia |].
    destruct (decide (code d = submitted)); [done |].
    unfold result, verify, admin_verify_code.
    destruct (decide (Some adminIdentity = Some adminIdentity)); [| done].
    by rewrite Hcases, set_authCodes_same.
  - intros d Hd Hge Heq. rewrite Hd in Hcases.
    destruct (decide (code_expires d < now)%Z); [lia |].
    destruct (decide (code d = submitted)); [| done].
    unfold result, verify, admin_verify_code.
    destruct (decide (Some adminIdentity = Some adminIdentity)); [| done].
    rewrite Hcases. eexists. split; [reflexivity |]. simpl.
    split; [apply lookup_delete_eq |]. split; [reflexivity |].
    intros now' sessionToken' now_created' now_expires'.
    destruct (decide (Some adminIdentity = Some adminIdentity)); [| done].
    unfold verifyAuthCode. simpl. by rewrite lookup_delete_eq.
  - intros issued requested Hissued ->. unfold sendAuthCode in Hissued. simpl in Hissued.
    rewrite lookup_insert_eq in Hissued.
    apply (Hexpired _ Hissued). simpl. lia.
Qed.

Lemma admin_verify_code_outcomes_witness :
  let pending :=
    set_authCodes (emptyServer [] (num 7 10)) (snd (sendAuthCode ∅ "42" "123456" 1000 true)) in
  fst (admin_verify_code (Some "42") pending "42" "123456" (1000 + 6 * 60 * 1000)
         "token" 0 0)
  = Error 400 "Invalid or expired code"
  ∧ fst (admin_verify_code (Some "42") pending "42" "123456" 2000 "token" 2000 2000)
    = Ok "token".
Proof.
  intros pending. split.
  - destruct (admin_verify_code_outcomes "42" pending "123456" (1000 + 6 * 60 * 1000)
                "token" 0 0) as (_ & _ & _ & _ & Hlate).
    by rewrite (Hlate ∅ 1000 eq_refl eq_refl).
  - destruct (admin_verify_code_outcomes "42" pending "123456" 2000 "token" 2000 2000)
      as (_ & _ & _ & Hok & _).
    destruct (Hok (mkAuthData "123456" (1000 + 5 * 60 * 1000))) as (srv' & Heq & _);
      [reflexivity | simpl; lia | reflexivity |].
    by rewrite Heq.
Defined.

(** C3 as stated fails: the three failures are not told apart.  No pending
    code, an expired code and a wrong code all get the same reply, and
    [verifyAuthCode] itself returns the same [false] for the three. *)
Lemma verify_code_failures_coincide :
  let none := emptyServer [] (num 7 10) in
  let pending := set_authCodes none (snd (sendAuthCode ∅ "42" "123456" 1000 true)) in
  let notFound := admin_verify_code (Some "42") none "42" "123456" 2000 "token" 2000 2000 in
  let expired :=
    admin_verify_code (Some "42") pending "42" "123456" (1000 + 6 * 60 * 1000)
                      "token" 0 0 in
  let mismatch :=
    admin_verify_code (Some "42") pending "42" "654321" 2000 "token" 2000 2000 in
  fst notFound = Error 400 "Invalid or expired code"
  ∧ fst expired = fst notFound
  ∧ fst mismatch = fst notFound
  ∧ fst (verifyAuthCode (authCodes none) "42" "123456" 2000) = false
  ∧ fst (verifyAuthCode (authCodes pending) "42" "123456" (1000 + 6 * 60 * 1000)) = false
  ∧ fst (verifyAuthCode (authCodes pending) "42" "654321" 2000) = false.
Proof. repeat split; vm_compute; reflexivity. Qed.

(* ===================================================================== *)
(** ** Message Store: two send requests on one conversation *)
(* ===================================================================== *)

Section Interleaving.

Variable toLowerCase : string -> string.
Variable create : string -> Try Completion.

Local Abbreviation sbegin := (send_begin toLowerCase).
Local Abbreviation sfinish := (send_finish create).
Local Abbreviation sstep := (step toLowerCase create).
Local Abbreviation srun := (run toLowerCase create).

Lemma send_begin_log (srv : Server) (client message : string) (now : Z) :
  pending_chatLog (fst (sbegin srv client message now))
  = chatLogFile srv ++ [mkMessage now client "user" message None None]
  ∧ pending_clientId (fst (sbegin srv client message now)) = client
  ∧ chatLogFile (snd (sbegin srv client message now)) = chatLogFile srv.
Proof.
  unfold send_begin.
  destruct (shouldEscalate (analyzeMessage toLowerCase (chatBot srv) message)); [done |].
  destruct (amatch (analyzeMessage toLowerCase (chatBot srv) message)) as [m |]; [| done].
  by destruct (updatePattern (knowledgeBase (chatBot srv)) (keywords (pattern m)) "positive").
Qed.

Lemma send_finish_log (srv : Server) (p : PendingSend) (now_bot : Z) (today : string)
    (now_reply : Z) :
  ∃ botMessage,
    chatLogFile (snd (sfinish srv p now_bot today now_reply))
    = pending_chatLog p ++ [botMessage]
    ∧ timestamp botMessage = now_bot
    ∧ clientId botMessage = pending_clientId p
    ∧ (role botMessage = "chatbot" ∨ role botMessage = "ai").
Proof.
  unfold send_finish.
  destruct (pending_answer p); simpl; eexists; (split; [reflexivity |]); simpl; auto.
Qed.

Lemma step_begin (r : Running) (id : nat) (client message : string) (now : Z) :
  sstep r (Begin id client message now)
  = mkRunning (snd (sbegin (shared r) client message now))
              (<[id := fst (sbegin (shared r) client message now)]> (suspended r)).
Proof.
  unfold step. by destruct (sbegin (shared r) client message now).
Qed.

Lemma step_finish (r : Running) (id : nat) (p : PendingSend) (now_bot : Z)
    (today : string) (now_reply : Z) :
  suspended r !! id = Some p ->
  sstep r (Finish id now_bot today now_reply)
  = mkRunning (snd (sfinish (shared r) p now_bot today now_reply))
              (delete id (suspended r)).
Proof. intros Hp. unfold step. by rewrite Hp. Qed.

Lemma run_cons (srv : Server) (schedule : list SendEvent) :
  srun srv schedule = shared (fold_left sstep schedule (mkRunning srv ∅)).
Proof. reflexivity. Qed.

(** The log after the two begins, then the two finishes in either order:
    what the last writer held. *)
Lemma interleaved_log (srv : Server) (first second : nat) (client : string)
    (m1 m2 : string) (t1 t2 u1 u2 : Z) (today : string) (r1 r2 : Z) :
  first ≠ second ->
  ∃ bot,
    chatLogFile
      (srun srv [Begin first client m1 t1; Begin second client m2 t2;
                 Finish first u1 today r1; Finish second u2 today r2])
    = chatLogFile srv ++ [mkMessage t2 client "user" m2 None None; bot]
    ∧ (role bot = "chatbot" ∨ role bot = "ai")
    ∧ clientId bot = client.
Proof.
  intros Hne. rewrite run_cons. cbn [fold_left].
  rewrite !step_begin. cbn [shared suspended].
  set (sA := snd (sbegin srv client m1 t1)).
  set (pA := fst (sbegin srv client m1 t1)).
  set (sB := snd (sbegin sA client m2 t2)).
  set (pB := fst (sbegin sA client m2 t2)).
  rewrite (step_finish _ first pA).
  2: { cbn [suspended]. rewrite lookup_insert_ne by done. apply lookup_insert_eq. }
  cbn [shared suspended].
  rewrite (step_finish _ second pB).
  2: { cbn [suspended]. rewrite lookup_delete_ne by done. apply lookup_insert_eq. }
  cbn [shared suspended].
  destruct (send_finish_log
              (snd (sfinish sB pA u1 today r1)) pB u2 today r2)
    as (bot & Hlog & _ & Hclient & Hrole).
  exists bot. rewrite Hlog.
  destruct (send_begin_log sA client m2 t2) as (HpB & HcB & _).
  destruct (send_begin_log srv client m1 t1) as (_ & _ & HsA).
  fold pB in HpB, HcB. fold sA in HsA.
  rewrite HpB, HsA, <- app_assoc. split; [reflexivity |]. split; [exact Hrole |].
  by rewrite Hclient.
Qed.

Lemma interleaved_log_rev (srv : Server) (first second : nat) (client : string)
    (m1 m2 : string) (t1 t2 u1 u2 : Z) (today : string) (r1 r2 : Z) :
  first ≠ second ->
  ∃ bot,
    chatLogFile
      (srun srv [Begin first client m1 t1; Begin second client m2 t2;
                 Finish second u2 today r2; Finish first u1 today r1])
    = chatLogFile srv ++ [mkMessage t1 client "user" m1 None None; bot]
    ∧ (role bot = "chatbot" ∨ role bot = "ai")
    ∧ clientId bot = client.
Proof.
  intros Hne. rewrite run_cons. cbn [fold_left].
  rewrite !step_begin. cbn [shared suspended].
  set (sA := snd (sbegin srv client m1 t1)).
  set (pA := fst (sbegin srv client m1 t1)).
  set (sB := snd (sbegin sA client m2 t2)).
  set (pB := fst (sbegin sA client m2 t2)).
  rewrite (step_finish _ second pB).
  2: { cbn [suspended]. apply lookup_insert_eq. }
  cbn [shared suspended].
  rewrite (step_finish _ first pA).
  2: { cbn [suspended]. rewrite lookup_delete_ne by done.
       rewrite lookup_insert_ne by done. apply lookup_insert_eq. }
  cbn [shared suspended].
  destruct (send_finish_log
              (snd (sfinish sB pB u2 today r2)) pA u1 today r1)
    as (bot & Hlog & _ & Hclient & Hrole).
  exists bot. rewrite Hlog.
  destruct (send_begin_log srv client m1 t1) as (HpA & HcA & _).
  fold pA in HpA, HcA.
  rewrite HpA, <- app_assoc. split; [reflexivity |]. split; [exact Hrole |].
  by rewrite Hclient.
Qed.

Lemma sequential_log (srv : Server) (first second : nat) (client : string)
    (m1 m2 : string) (t1 t2 u1 u2 : Z) (today : string) (r1 r2 : Z) :
  ∃ bot1 bot2,
    chatLogFile
      (srun srv [Begin first client m1 t1; Finish first u1 today r1;
                 Begin second client m2 t2; Finish second u2 today r2])
    = chatLogFile srv ++ [mkMessage t1 client "user" m1 None None; bot1;
                          mkMessage t2 client "user" m2 None None; bot2]
    ∧ srun srv [Begin first client m1 t1; Finish first u1 today r1;
                Begin second client m2 t2; Finish second u2 today r2]
      = snd (chat_send toLowerCase create
               (snd (chat_send toLowerCase create srv client m1 t1 u1 today r1))
               client m2 t2 u2 today r2).
Proof.
  rewrite run_cons. cbn [fold_left].
  rewrite (step_begin (mkRunning srv ∅)). cbn [shared suspended].
  rewrite (step_finish _ first (fst (sbegin srv client m1 t1)));
    [| cbn [suspended]; apply lookup_insert_eq].
  cbn [shared suspended].
  rewrite step_begin. cbn [shared suspended].
  set (s1 := snd (sfinish (snd (sbegin srv client m1 t1))
                    (fst (sbegin srv client m1 t1)) u1 today r1)).
  rewrite (step_finish _ second (fst (sbegin s1 client m2 t2)));
    [| cbn [suspended]; apply lookup_insert_eq].
  cbn [shared suspended].
  destruct (send_finish_log (snd (sbegin s1 client m2 t2))
              (fst (sbegin s1 client m2 t2)) u2 today r2) as (bot2 & Hlog2 & _).
  destruct (send_finish_log (snd (sbegin srv client m1 t1))
              (fst (sbegin srv client m1 t1)) u1 today r1) as (bot1 & Hlog1 & _).
  fold s1 in Hlog1.
  destruct (send_begin_log s1 client m2 t2) as (Hp2 & _ & _).
  destruct (send_begin_log srv client m1 t1) as (Hp1 & _ & _).
  exists bot1, bot2. split.
  - rewrite Hlog2, Hp2, Hlog1, Hp1, <- !app_assoc. reflexivity.
  - unfold chat_send.
    destruct (sbegin srv client m1 t1) as [pa sa] eqn:Ha. cbn [fst snd] in s1.
    fold s1. by destruct (sbegin s1 client m2 t2).
Qed.

End Interleaving.

Lemma user_not_in_written (log : list Message) (mine other bot : Message) :
  role mine = "user" ->
  role bot = "chatbot" ∨ role bot = "ai" ->
  mine ∉ log -> mine ≠ other -> mine ∉ log ++ [other; bot].
Proof.
  intros Hrole Hbot Hlog Hne Hin.
  apply elem_of_app in Hin as [Hin | Hin]; [done |].
  apply elem_of_cons in Hin as [Heq | Hin]; [done |].
  apply list_elem_of_singleton in Hin as ->.
  rewrite Hrole in Hbot. by destruct Hbot.
Qed.

(** C4, as the code has it.  Two send requests on one conversation that
    run one after the other both leave their messages in the log.  When
    both have read the log before either writes it, the log ends as the log
    they read followed by the two messages of the request that writes last:
    the user message of the other request is not in it. *)
Theorem send_interleaved_loses_update
    (toLowerCase : string -> string) (create : string -> Try Completion)
    (srv : Server) (client mA mB : string) (tA tB uA uB : Z) (today : string)
    (rA rB : Z) :
  let run := run toLowerCase create in
  let userA := mkMessage tA client "user" mA None None in
  let userB := mkMessage tB client "user" mB None None in
  let beginA := Begin 1 client mA tA in
  let beginB := Begin 2 client mB tB in
  let finishA := Finish 1 uA today rA in
  let finishB := Finish 2 uB today rB in
  (∃ botA botB,
     chatLogFile (run srv [beginA; finishA; beginB; finishB])
     = chatLogFile srv ++ [userA; botA; userB; botB])
  ∧ run srv [beginA; finishA; beginB; finishB]
    = snd (chat_send toLowerCase create
             (snd (chat_send toLowerCase create srv client mA tA uA today rA))
             client mB tB uB today rB)
  ∧ (∃ botB,
       chatLogFile (run srv [beginA; beginB; finishA; finishB])
       = chatLogFile srv ++ [userB; botB])
  ∧ (∃ botA,
       chatLogFile (run srv [beginA; beginB; finishB; finishA])
       = chatLogFile srv ++ [userA; botA])
  ∧ (userA ≠ userB -> userA ∉ chatLogFile srv ->
       userA ∉ chatLogFile (run srv [beginA; beginB; finishA; finishB]))
  ∧ (userA ≠ userB -> userB ∉ chatLogFile srv ->
       userB ∉ chatLogFile (run srv [beginA; beginB; finishB; finishA])).
Proof.
  intros run' userA userB beginA beginB finishA finishB.
  destruct (sequential_log toLowerCase create srv 1 2 client mA mB tA tB uA uB today rA rB)
    as (botA & botB & Hseq & Hsend).
  destruct (interleaved_log toLowerCase create srv 1 2 client mA mB tA tB uA uB today rA rB)
    as (botB' & Hint & HroleB & _); [done |].
  destruct (interleaved_log_rev toLowerCase create srv 1 2 client mA mB tA tB uA uB
              today rA rB) as (botA' & Hrev & HroleA & _); [done |].
  split; [by exists botA, botB |]. split; [exact Hsend |].
  split; [by exists botB' |]. split; [by exists botA' |]. split.
  - intros Hne Hfresh. unfold run', beginA, beginB, finishA, finishB. rewrite Hint.
    by apply user_not_in_written.
  - intros Hne Hfresh. unfold run', beginA, beginB, finishA, finishB. rewrite Hrev.
    by apply user_not_in_written.
Qed.

Lemma send_interleaved_loses_update_witness :
  let srv := emptyServer defaultPatterns (num 7 10) in
  mkMessage 1 "c1" "user" "merhaba" None None
  ∉ chatLogFile
      (run asciiLower (fun _ => Throw "ETIMEDOUT") srv
         [Begin 1 "c1" "merhaba" 1; Begin 2 "c1" messageKargo 2;
          Finish 1 3 "2024-05-01" 4; Finish 2 5 "2024-05-01" 6]).
Proof.
  intros srv.
  destruct (send_interleaved_loses_update asciiLower (fun _ => Throw "ETIMEDOUT") srv
              "c1" "merhaba" messageKargo 1 2 3 5 "2024-05-01" 4 6)
    as (_ & _ & _ & _ & Hlost & _).
  apply Hlost.
  - discriminate.
  - simpl. apply not_elem_of_nil.
Defined.

(** C4 as stated fails: with the log empty, the request "merhaba" and the
    request "kargo ne zaman gelir" both read the log before either writes;
    the final log holds the second request's two messages only. *)
Lemma send_lost_update :
  let srv := emptyServer defaultPatterns (num 7 10) in
  let final :=
    run asciiLower (fun _ => Throw "ETIMEDOUT") srv
      [Begin 1 "c1" "merhaba" 1; Begin 2 "c1" messageKargo 2;
       Finish 1 3 "2024-05-01" 4; Finish 2 5 "2024-05-01" 6] in
  map content (chatLogFile final) = [messageKargo; fallbackText]
  ∧ map timestamp (chatLogFile final) = [2; 5]
  ∧ ¬ (∃ m, m ∈ chatLogFile final ∧ content m = "merhaba").
Proof.
  intros srv final.
  assert (map content (chatLogFile final) = [messageKargo; fallbackText]) as Hcontent
    by (vm_compute; reflexivity).
  split; [exact Hcontent |]. split; [vm_compute; reflexivity |].
  clearbody final. intros (m & Hm & Hc).
  assert (content m ∈ map content (chatLogFile final)) as Hin
    by (apply list_elem_of_fmap; by exists m).
  rewrite Hcontent, Hc in Hin.
  apply elem_of_cons in Hin as [Heq | Hin]; [discriminate |].
  apply list_elem_of_singleton in Hin. discriminate.
Qed.

(* ===================================================================== *)
(** ** Takeover Manager: the session check and the takeover record *)
(* ===================================================================== *)

Lemma js_get_own {A} (obj : gmap string A) (key : string) (a : A) :
  obj !! key = Some a -> js_get obj key = Own a.
Proof. intros H. unfold js_get. by rewrite H. Qed.

Lemma js_get_undefined {A} (obj : gmap string A) (key : string) :
  obj !! key = None -> key ∉ objectPrototypeKeys -> js_get obj key = Undefined.
Proof. intros H Hk. unfold js_get. rewrite H. by rewrite bool_decide_eq_false_2. Qed.

Lemma js_get_inherited {A} (obj : gmap string A) (key : string) :
  obj !! key = None -> key ∈ objectPrototypeKeys -> js_get obj key = Inherited.
Proof. intros H Hk. unfold js_get. rewrite H. by rewrite bool_decide_eq_true_2. Qed.

(** For a token that is not a name inherited from [Object.prototype], the
    check rejects exactly the unknown and the expired sessions. *)
Lemma sessionRejected_spec (sessions : gmap string AdminSession) (token : string) (now : Z) :
  token ∉ objectPrototypeKeys ->
  sessionRejected sessions token now = true
  <-> sessions !! token = None
      ∨ ∃ session, sessions !! token = Some session ∧ (expires session < now)%Z.
Proof.
  intros Hk. unfold sessionRejected.
  destruct (sessions !! token) as [session |] eqn:Hs.
  - rewrite (js_get_own _ _ _ Hs). rewrite Z.ltb_lt. split.
    + intros Hlt. right. by exists session.
    + intros [Hnone | (s & [= <-] & Hlt)]; [discriminate | done].
  - rewrite (js_get_undefined _ _ Hs Hk). split; [by left | done].
Qed.

(** An inherited name that is not a stored session passes the check. *)
Lemma sessionRejected_inherited (sessions : gmap string AdminSession) (token : string)
    (now : Z) :
  sessions !! token = None -> token ∈ objectPrototypeKeys ->
  sessionRejected sessions token now = false
  ∧ sessionTelegramId sessions token = None.
Proof.
  intros Hs Hk. unfold sessionRejected, sessionTelegramId.
  by rewrite (js_get_inherited _ _ Hs Hk).
Qed.

Lemma admin_takeover_rejected (srv : Server) (authorization : option string)
    (conversationId : string) (now now_takeover now_message : Z) :
  sessionRejected (adminSessionsFile srv) (bearerToken authorization) now = true ->
  admin_takeover srv authorization conversationId now now_takeover now_message
  = (Error 401 "Unauthorized", srv).
Proof. intros H. unfold admin_takeover. by rewrite H. Qed.


(** C8 at its failing input.  No session is stored, and the request
    carries [Authorization: Bearer constructor].  The token is the name of
    a property every object inherits, so the session check lets it pass:
    the handler answers with success, records a takeover without an admin
    id and appends the admin greeting, where the claim has [Unauthorized]
    and no change of state. *)
Theorem admin_takeover_inherited_token :
  let srv := emptyServer defaultPatterns (num 7 10) in
  let result := admin_takeover srv (Some "Bearer constructor") "c1" 1000 1001 1002 in
  adminSessionsFile srv !! bearerToken (Some "Bearer constructor") = None
  ∧ bearerToken (Some "Bearer constructor") = "constructor"
  ∧ fst result = Ok "Conversation taken over"
  ∧ chatLogFile (snd result)
    = [mkMessage 1002 "c1" "admin" greetingText (Some 1%Qc) None]
  ∧ adminTakeovers (analyticsFile (snd result))
    = Some {[ "c1" := mkTakeover 1001 None "active" ]}
  ∧ snd result ≠ srv.
Proof.
  intros srv result.
  assert (chatLogFile (snd result)
          = [mkMessage 1002 "c1" "admin" greetingText (Some 1%Qc) None]) as Hlog
    by reflexivity.
  split; [reflexivity |]. split; [reflexivity |]. split; [reflexivity |].
  split; [exact Hlog |]. split; [reflexivity |].
  intros Heq. rewrite Heq in Hlog. discriminate.
Qed.

(** The same check guards the respond handler. *)
Lemma admin_respond_inherited_token :
  let srv := emptyServer defaultPatterns (num 7 10) in
  let result :=
    admin_respond srv (Some "Bearer constructor") "c1" "hello" 1000 1001 "2024-05-01" in
  fst result = Ok 1001
  ∧ chatLogFile (snd result) = [mkMessage 1001 "c1" "admin" "hello" (Some 1%Qc) None].
Proof. split; reflexivity. Qed.

(** A takeover of the conversation named [__proto__] stores no record,
    even with a valid session: the assignment reaches the inherited setter. *)
Lemma admin_takeover_proto_conversation (srv : Server) (authorization : option string)
    (now now_takeover now_message : Z) :
  sessionRejected (adminSessionsFile srv) (bearerToken authorization) now = false ->
  default ∅ (adminTakeovers (analyticsFile srv)) !! "__proto__" = None ->
  adminTakeovers
    (analyticsFile
       (snd (admin_takeover srv authorization "__proto__" now now_takeover now_message)))
  = Some (default ∅ (adminTakeovers (analyticsFile srv))).
Proof.
  intros Hvalid Hnone. unfold admin_takeover. rewrite Hvalid. simpl.
  unfold js_set. destruct (decide ("__proto__" = "__proto__")); [| done].
  by rewrite Hnone.
Qed.

(** Another identity than the configured admin is turned away before any
    code is looked at. *)
Lemma admin_verify_code_other_identity (ADMIN_TELEGRAM_ID : option string)
    (srv : Server) (telegram submitted : string) (now : Z) (sessionToken : string)
    (now_created now_expires : Z) :
  Some telegram ≠ ADMIN_TELEGRAM_ID ->
  admin_verify_code ADMIN_TELEGRAM_ID srv telegram submitted now sessionToken
                    now_created now_expires
  = (Error 403 "Unauthorized", srv).
Proof.
  intros Hne. unfold admin_verify_code.
  by destruct (decide (Some telegram = ADMIN_TELEGRAM_ID)).
Qed.

(** Start-up with an empty knowledge-base file loads the bootstrap patterns. *)
Lemma loadKnowledgeBase_bootstrap (threshold : Qc) :
  chatBot (loadKnowledgeBase (emptyServer [] threshold))
  = mkBrain defaultPatterns threshold.
Proof. reflexivity. Qed.

(* ===================================================================== *)
(** ** Polling as a catch-up protocol *)
(* ===================================================================== *)







(* ===================================================================== *)
(** ** History *)
(* ===================================================================== *)

Section HistoryFacts.

Variable toLowerCase : string -> string.
Variable create : string -> Try Completion.

Lemma chat_send_log (srv : Server) (client message : string)
    (now_user now_bot : Z) (today : string) (now_reply : Z) :
  ∃ bot,
    chatLogFile
      (snd (chat_send toLowerCase create srv client message now_user now_bot today now_reply))
    = chatLogFile srv ++ [mkMessage now_user client "user" message None None; bot]
    ∧ timestamp bot = now_bot
    ∧ clientId bot = client
    ∧ (role bot = "chatbot" ∨ role bot = "ai").
Proof.
  unfold chat_send.
  destruct (send_begin_log toLowerCase srv client message now_user) as (Hp & Hc & _).
  destruct (send_begin toLowerCase srv client message now_user) as [p srv1].
  cbn [fst snd] in Hp, Hc.
  destruct (send_finish_log create srv1 p now_bot today now_reply)
    as (bot & Hlog & Ht & Hcl & Hrole).
  exists bot. rewrite Hlog, Hp, <- app_assoc. split; [reflexivity |].
  split; [exact Ht |]. split; [by rewrite Hcl |]. exact Hrole.
Qed.

(** X3.  The history of a client is its part of the log, in log order.  A
    send request of that client extends its history by exactly the user
    message and the answer, and leaves the history of every other client as
    it was. *)
Theorem history_after_send (srv : Server) (client message : string)
    (now_user now_bot : Z) (today : string) (now_reply : Z) :
  let after := snd (chat_send toLowerCase create srv client message
                              now_user now_bot today now_reply) in
  ∃ before_history bot,
    fst (chat_history srv client) = Ok before_history
    ∧ fst (chat_history after client)
      = Ok (before_history ++ [mkMessage now_user client "user" message None None; bot])
    ∧ timestamp bot = now_bot
    ∧ (role bot = "chatbot" ∨ role bot = "ai")
    ∧ (∀ m, m ∈ before_history <-> m ∈ chatLogFile srv ∧ clientId m = client)
    ∧ ∀ other, other ≠ client ->
        fst (chat_history after other) = fst (chat_history srv other).
Proof.
  intros after.
  destruct (chat_send_log srv client message now_user now_bot today now_reply)
    as (bot & Hlog & Ht & Hc & Hrole).
  fold after in Hlog.
  eexists _, bot. split; [reflexivity |].
  unfold chat_history. cbn [fst]. rewrite Hlog, list.filter_app.
  split; [| split; [exact Ht |]; split; [exact Hrole |]; split].
  - rewrite filter_cons_True by reflexivity.
    rewrite filter_cons_True by exact Hc. reflexivity.
  - intros m. rewrite list_elem_of_filter. tauto.
  - intros other Hne. rewrite list.filter_app.
    rewrite filter_cons_False by (simpl; congruence).
    rewrite filter_cons_False by (rewrite Hc; congruence).
    by rewrite filter_nil, app_nil_r.
Qed.

End HistoryFacts.

(* ===================================================================== *)
(** ** Signing in: request a code, verify it, use the session *)
(* ===================================================================== *)










(** X5.  A code requested anew replaces the pending one: the earlier code
    is then refused, which leaves the newer code pending, and the newer code
    still signs in.  A request for another identity than the configured
    admin is turned away and stores nothing. *)
Theorem request_code_replaces (identity older newer : string) (srv : Server)
    (requested_older requested_newer : Z) (delivered_older delivered_newer : bool)
    (submitted_at : Z) (token : string) (now_created now_expires : Z)
    (Hdiffer : older ≠ newer)
    (Hintime : (submitted_at <= requested_newer + 5 * 60 * 1000)%Z) :
  let request := admin_request_code (Some identity) in
  let verify := admin_verify_code (Some identity) in
  let srv1 := snd (request srv identity older requested_older delivered_older) in
  let srv2 := snd (request srv1 identity newer requested_newer delivered_newer) in
  verify srv2 identity older submitted_at token now_created now_expires
  = (Error 400 "Invalid or expired code", srv2)
  ∧ fst (verify srv2 identity newer submitted_at token now_created now_expires) = Ok token
  ∧ ∀ other code now delivered,
      other ≠ identity ->
      request srv other code now delivered = (Error 403 "Unauthorized", srv).
Proof.
  intros request verify srv1 srv2.
  assert (authCodes srv2 !! identity
          = Some (mkAuthData newer (requested_newer + 5 * 60 * 1000))) as Hpending.
  { unfold srv2, srv1, request, admin_request_code.
    destruct (decide (Some identity = Some identity)); [| done].
    cbn [snd authCodes set_authCodes sendAuthCode]. apply lookup_insert_eq. }
  split; [| split].
  - unfold verify, admin_verify_code.
    destruct (decide (Some identity = Some identity)); [| done].
    pose proof (verifyAuthCode_cases (authCodes srv2) identity older submitted_at) as Hc.
    rewrite Hpending in Hc. cbn [code_expires code] in Hc.
    destruct (decide (requested_newer + 5 * 60 * 1000 < submitted_at)%Z); [lia |].
    destruct (decide (newer = older)); [congruence |].
    by rewrite Hc, set_authCodes_same.
  - unfold verify, admin_verify_code.
    destruct (decide (Some identity = Some identity)); [| done].
    pose proof (verifyAuthCode_cases (authCodes srv2) identity newer submitted_at) as Hc.
    rewrite Hpending in Hc. cbn [code_expires code] in Hc.
    destruct (decide (requested_newer + 5 * 60 * 1000 < submitted_at)%Z); [lia |].
    destruct (decide (newer = newer)); [| done].
    by rewrite Hc.
  - intros other code now delivered Hother. unfold request, admin_request_code.
    destruct (decide (Some other = Some identity)); [congruence | reflexivity].
Qed.

Lemma request_code_replaces_witness :
  let srv := emptyServer defaultPatterns (num 7 10) in
  let srv1 := snd (admin_request_code (Some "42") srv "42" "111111" 1000 true) in
  let srv2 := snd (admin_request_code (Some "42") srv1 "42" "222222" 2000 true) in
  fst (admin_verify_code (Some "42") srv2 "42" "111111" 3000 "t-1" 3000 3000)
  = Error 400 "Invalid or expired code"
  ∧ fst (admin_verify_code (Some "42") srv2 "42" "222222" 3000 "t-1" 3000 3000) = Ok "t-1".
Proof.
  intros srv srv1 srv2.
  destruct (request_code_replaces "42" "111111" "222222" srv 1000 2000 true true 3000
              "t-1" 3000 3000) as (Hold & Hnew & _); [discriminate | lia |].
  split; [| exact Hnew].
  unfold srv2, srv1. by rewrite Hold.
Defined.

(* ===================================================================== *)
(** ** Analytics: the statistics handlers *)
(* ===================================================================== *)

Lemma Qc_this_plus (x y : Qc) : (this (x + y)%Qc == this x + this y)%Q.
Proof. simpl. apply Qred_correct. Qed.
Lemma Qc_this_mult (x y : Qc) : (this (x * y)%Qc == this x * this y)%Q.
Proof. simpl. apply Qred_correct. Qed.
Lemma Qc_this_inv (x : Qc) : (this (/ x)%Qc == / this x)%Q.
Proof. simpl. apply Qred_correct. Qed.
Lemma Qc_this_of_Z (z : Z) : this (Qc_of_Z z) = inject_Z z.
Proof. reflexivity. Qed.
Lemma Qc_this_num (n : Z) (d : positive) : (this (num n d) == n # d)%Q.
Proof. simpl. apply Qred_correct. Qed.

Lemma Math_round_bounds (x : Qc) :
  (inject_Z (Math_round x) <= this x + (1 # 2))%Q
  ∧ (this x + (1 # 2) < inject_Z (Math_round x) + 1)%Q.
Proof.
  unfold Math_round.
  assert (this (x + num 1 2)%Qc == this x + (1 # 2))%Q as Heq
    by (rewrite Qc_this_plus, Qc_this_num; reflexivity).
  split.
  - rewrite <- Heq. apply Qfloor_le.
  - rewrite <- Heq. pose proof (Qlt_floor (this (x + num 1 2)%Qc)) as H.
    rewrite inject_Z_plus in H. exact H.
Qed.

Lemma percentOf_Q (part whole : Z) :
  (this (Qc_of_Z part / Qc_of_Z whole * Qc_of_Z 100)%Qc
   == inject_Z part / inject_Z whole * 100)%Q.
Proof.
  unfold Qcdiv. rewrite !Qc_this_mult, Qc_this_inv, !Qc_this_of_Z. reflexivity.
Qed.

Lemma percentOf_bounds (part whole : Z) :
  0 < whole ->
  (inject_Z (percentOf part whole) <= inject_Z part / inject_Z whole * 100 + (1 # 2))%Q
  ∧ (inject_Z part / inject_Z whole * 100 + (1 # 2) < inject_Z (percentOf part whole) + 1)%Q.
Proof.
  intros Hw. unfold percentOf.
  destruct (Math_round_bounds (Qc_of_Z part / Qc_of_Z whole * Qc_of_Z 100)%Qc) as [H1 H2].
  rewrite percentOf_Q in H1, H2. by split.
Qed.

Lemma Q_to_Z_le (a : Z) (q : Q) (b : Z) :
  (inject_Z a <= q)%Q -> (q < inject_Z b)%Q -> a < b.
Proof. intros H1 H2. rewrite Zlt_Qlt. by eapply Qle_lt_trans. Qed.

Lemma ratio_range (part whole : Z) :
  0 <= part <= whole -> 0 < whole ->
  (0 <= inject_Z part / inject_Z whole)%Q ∧ (inject_Z part / inject_Z whole <= 1)%Q.
Proof.
  intros Hp Hw. split.
  - apply Qle_shift_div_l; [by rewrite <- (Zlt_Qlt 0) |]. rewrite Qmult_0_l.
    rewrite <- (Zle_Qle 0). lia.
  - apply Qle_shift_div_r; [by rewrite <- (Zlt_Qlt 0) |]. rewrite Qmult_1_l.
    rewrite <- Zle_Qle. lia.
Qed.

Lemma percentOf_range (part whole : Z) :
  0 <= part <= whole -> 0 < whole -> 0 <= percentOf part whole <= 100.
Proof.
  intros Hp Hw. destruct (percentOf_bounds part whole Hw) as [H1 H2].
  destruct (ratio_range part whole Hp Hw) as [Hlo Hhi].
  set (r := (inject_Z part / inject_Z whole)%Q) in *. clearbody r.
  split.
  - assert (-1 < percentOf part whole); [| lia].
    rewrite Zlt_Qlt. change (inject_Z (-1)) with (-1 # 1)%Q. lra.
  - assert (percentOf part whole < 101); [| lia].
    rewrite Zlt_Qlt. change (inject_Z 101) with (101 # 1)%Q. lra.
Qed.

Lemma percentOf_sum (c1 c2 c3 whole : Z) :
  0 < whole -> whole = c1 + c2 + c3 ->
  99 <= percentOf c1 whole + percentOf c2 whole + percentOf c3 whole <= 101.
Proof.
  intros Hw Hsum.
  destruct (percentOf_bounds c1 whole Hw) as [A1 A2].
  destruct (percentOf_bounds c2 whole Hw) as [B1 B2].
  destruct (percentOf_bounds c3 whole Hw) as [C1 C2].
  assert (inject_Z c1 / inject_Z whole * 100 + inject_Z c2 / inject_Z whole * 100
          + inject_Z c3 / inject_Z whole * 100 == 100)%Q as Htotal.
  { rewrite Hsum, !inject_Z_plus. field. rewrite <- !inject_Z_plus, <- Hsum.
    intros H0. apply (Qlt_irrefl 0). rewrite <- H0 at 2. by rewrite <- (Zlt_Qlt 0). }
  set (x1 := (inject_Z c1 / inject_Z whole * 100)%Q) in *.
  set (x2 := (inject_Z c2 / inject_Z whole * 100)%Q) in *.
  set (x3 := (inject_Z c3 / inject_Z whole * 100)%Q) in *. clearbody x1 x2 x3.
  split.
  - assert (98 < percentOf c1 whole + percentOf c2 whole + percentOf c3 whole); [| lia].
    rewrite Zlt_Qlt, !inject_Z_plus. change (inject_Z 98) with (98 # 1)%Q. lra.
  - assert (percentOf c1 whole + percentOf c2 whole + percentOf c3 whole < 102); [| lia].
    rewrite Zlt_Qlt, !inject_Z_plus. change (inject_Z 102) with (102 # 1)%Q. lra.
Qed.

Lemma addDaily_empty (b : DailyAnalytics) : addDaily emptyDaily b = b.
Proof. by destruct b. Qed.

Lemma addDaily_ok (acc b : DailyAnalytics) :
  dailyInvariant acc -> dailyInvariant b -> dailyInvariant (addDaily acc b).
Proof. unfold dailyInvariant, addDaily. simpl. lia. Qed.

Lemma dayStats_ok (a : Analytics) (day : string) :
  bucketsOk a -> dailyInvariant (dayStats a day).
Proof.
  intros Hok. unfold dayStats.
  destruct (days a !! day) as [b |] eqn:Hb; simpl; [by eapply Hok | apply emptyDaily_ok].
Qed.

Section CalendarFacts.

Variable formatDay : Z -> string.
Variable startOfWeek : Z -> Z.
Variable startOfMonth : Z -> Z.
Variable endOfMonth : Z -> Z.

Lemma weeklyStats_ok (a : Analytics) (weekStart : Z) :
  bucketsOk a -> dailyInvariant (weeklyStats formatDay a weekStart).
Proof.
  intros Hok. unfold weeklyStats.
  generalize (seqZ 0 7). intros l.
  assert (dailyInvariant emptyDaily) as Hacc by apply emptyDaily_ok.
  revert Hacc. generalize emptyDaily.
  induction l as [| i l IH]; intros acc Hacc; simpl; [exact Hacc |].
  apply IH, addDaily_ok; [exact Hacc | by apply dayStats_ok].
Qed.

Lemma monthlyStats_one_day (a : Analytics) (today : Z) :
  monthlyStats formatDay startOfMonth endOfMonth a today
  = dayStats a (formatDay (endOfMonth (startOfMonth today))).
Proof.
  unfold monthlyStats. set (e := endOfMonth (startOfMonth today)).
  replace (Z.to_nat (e - e + 1)) with 1%nat by lia.
  cbn [monthlyLoop]. rewrite Z.leb_refl.
  replace (e + 1 <=? e)%Z with false by (symmetry; apply Z.leb_gt; lia).
  apply addDaily_empty.
Qed.

(** X6.  The monthly statistics are the figures of one day only.  The
    handler takes the start and the end of the month from the same moment
    object, which both calls change, so its loop starts on the last day of
    the month and stops after it: the reply is that day's bucket, or zeros
    when there is none, and no other day of the month is counted. *)
Theorem stats_monthly_one_day (srv : Server) (today now_reply : Z) :
  let lastDay := formatDay (endOfMonth (startOfMonth today)) in
  ∃ resp,
    analytics_stats formatDay startOfWeek startOfMonth endOfMonth srv
                    (Some "monthly") today now_reply = (Ok resp, srv)
    ∧ stats resp = Some (default emptyDaily (days (analyticsFile srv) !! lastDay))
    ∧ ∀ bucket day,
        day ≠ lastDay ->
        let other :=
          set_analyticsFile srv
            (mkAnalytics (<[day := bucket]> (days (analyticsFile srv)))
                         (adminTakeovers (analyticsFile srv)) (feedback (analyticsFile srv))) in
        fst (analytics_stats formatDay startOfWeek startOfMonth endOfMonth other
                             (Some "monthly") today now_reply)
        = Ok resp.
Proof.
  intros lastDay. eexists. split; [reflexivity |]. cbn [stats].
  rewrite monthlyStats_one_day. fold lastDay. split; [reflexivity |].
  intros bucket day Hne. unfold analytics_stats.
  cbn [fst default analyticsFile set_analyticsFile chatLogFile].
  change (id "monthly") with "monthly".
  destruct (decide ("monthly" = "daily")); [discriminate |].
  destruct (decide ("monthly" = "weekly")); [discriminate |].
  destruct (decide ("monthly" = "monthly")); [| done].
  rewrite !monthlyStats_one_day. fold lastDay.
  unfold dayStats. cbn [days]. by rewrite lookup_insert_ne.
Qed.

(** X7.  When every day bucket satisfies [total = chatbot + ai + admin] with
    non-negative counters, so do the figures reported for the daily, weekly
    and monthly periods.  The role distribution is present exactly when the
    reported total is positive; each of its three percentages then lies
    between 0 and 100, and together they make 99, 100 or 101. *)
Theorem stats_distribution (srv : Server) (period : option string) (today now_reply : Z)
    (Hok : bucketsOk (analyticsFile srv)) :
  ∃ resp,
    analytics_stats formatDay startOfWeek startOfMonth endOfMonth srv period today now_reply
    = (Ok resp, srv)
    ∧ (∀ s, stats resp = Some s -> dailyInvariant s)
    ∧ (is_Some (roleDistribution resp) <-> ∃ s, stats resp = Some s ∧ 0 < total s)
    ∧ ∀ d, roleDistribution resp = Some d ->
        0 <= chatbot_share d <= 100
        ∧ 0 <= ai_share d <= 100
        ∧ 0 <= admin_share d <= 100
        ∧ 99 <= chatbot_share d + ai_share d + admin_share d <= 101.
Proof.
  eexists. split; [reflexivity |]. cbn [stats roleDistribution].
  set (st := if decide (default "daily" period = "daily")
             then Some (dayStats (analyticsFile srv) (formatDay today))
             else if decide (default "daily" period = "weekly")
                  then Some (weeklyStats formatDay (analyticsFile srv) (startOfWeek today))
                  else if decide (default "daily" period = "monthly")
                       then Some (monthlyStats formatDay startOfMonth endOfMonth
                                               (analyticsFile srv) today)
                       else None).
  assert (∀ s, st = Some s -> dailyInvariant s) as Hinv.
  { intros s. unfold st.
    destruct (decide (default "daily" period = "daily")); [intros [= <-]; by apply dayStats_ok |].
    destruct (decide (default "daily" period = "weekly"));
      [intros [= <-]; by apply weeklyStats_ok |].
    destruct (decide (default "daily" period = "monthly")); [| discriminate].
    intros [= <-]. rewrite monthlyStats_one_day. by apply dayStats_ok. }
  split; [exact Hinv |].
  destruct st as [s |]; [| split; [split; [by intros [? ?] | by intros (? & ? & _)] | done]].
  specialize (Hinv s eq_refl). destruct Hinv as (Hsum & Ht & Hc & Ha & Hd).
  destruct (0 <? total s)%Z eqn:Hpos.
  - apply Z.ltb_lt in Hpos. split.
    + split; [intros _; by exists s | by eexists].
    + intros d [= <-]. cbn [chatbot_share ai_share admin_share].
      split; [apply percentOf_range; lia |].
      split; [apply percentOf_range; lia |].
      split; [apply percentOf_range; lia |].
      by apply percentOf_sum.
  - apply Z.ltb_ge in Hpos. split; [| done].
    split; [by intros [? ?] |]. intros (s' & [= <-] & Hlt). lia.
Qed.

End CalendarFacts.

Lemma stats_distribution_witness :
  let srv :=
    set_analyticsFile (emptyServer [] (num 7 10))
      (mkAnalytics {[ "2024-05-01" := mkDaily 3 1 1 1 ]} None None) in
  ∃ resp,
    analytics_stats (fun _ => "2024-05-01") (fun d => d) (fun d => d) (fun d => d)
                    srv None 0 1 = (Ok resp, srv)
    ∧ ∀ d, roleDistribution resp = Some d ->
        99 <= chatbot_share d + ai_share d + admin_share d <= 101.
Proof.
  intros srv.
  destruct (stats_distribution (fun _ => "2024-05-01") (fun d => d) (fun d => d)
              (fun d => d) srv None 0 1) as (resp & Heq & _ & _ & Hd).
  - intros d b. unfold srv. cbn [analyticsFile set_analyticsFile days].
    intros Hb. apply lookup_singleton_Some in Hb as [_ <-].
    unfold dailyInvariant. simpl. lia.
  - exists resp. split; [exact Heq |]. intros d Hdist. by apply Hd.
Defined.

(* ===================================================================== *)
(** ** What every request does to the stored state *)
(* ===================================================================== *)

Section RequestFacts.

Variable toLowerCase : string -> string.
Variable create : string -> Try Completion.
Variable ADMIN_TELEGRAM_ID : option string.

Local Abbreviation handle' := (handle toLowerCase create ADMIN_TELEGRAM_ID).

(** A send request in full: what it appends and what it records. *)
Lemma chat_send_effect (srv : Server) (client message : string)
    (now_user now_bot : Z) (today : string) (now_reply : Z) :
  let srv' := snd (chat_send toLowerCase create srv client message
                             now_user now_bot today now_reply) in
  ∃ bot,
    chatLogFile srv'
    = chatLogFile srv ++ [mkMessage now_user client "user" message None None; bot]
    ∧ (role bot = "chatbot" ∨ role bot = "ai")
    ∧ analyticsFile srv' = recordMessage (analyticsFile srv) today (role bot)
    ∧ adminSessionsFile srv' = adminSessionsFile srv
    ∧ authCodes srv' = authCodes srv.
Proof.
  unfold chat_send, send_begin.
  destruct (shouldEscalate (analyzeMessage toLowerCase (chatBot srv) message)).
  { eexists. unfold send_finish. cbn. rewrite <- app_assoc.
    split; [reflexivity |]. split; [by right |]. by repeat split. }
  destruct (amatch (analyzeMessage toLowerCase (chatBot srv) message)) as [m |].
  2: { eexists. unfold send_finish. cbn. rewrite <- app_assoc.
       split; [reflexivity |]. split; [by right |]. by repeat split. }
  destruct (updatePattern (knowledgeBase (chatBot srv)) (keywords (pattern m)) "positive");
    eexists; unfold send_finish; cbn; rewrite <- app_assoc;
    (split; [reflexivity |]); (split; [by left |]); by repeat split.
Qed.

Lemma handle_effect (srv : Server) (req : Request) : Effect srv (handle' srv req).
Proof.
  destruct req as [op | | | | | |]; cbn [handle].
  - destruct op; cbn [perform].
    + destruct (chat_send_effect srv client message now_user now_bot today now_reply)
        as (bot & Hlog & Hrole & Hrec & _).
      by eapply Answered.
    + by apply Untouched.
    + apply Untouched.
      * unfold chat_feedback.
        destruct ((0 <=? messageId)%Z && (messageId <? Z.of_nat (length (chatLogFile srv)))%Z);
          [| reflexivity].
        cbn [snd].
        destruct (bool_decide (role <$> chatLogFile srv !! Z.to_nat messageId = Some "chatbot")
                  && negb (bool_decide (rating = ""))); [| reflexivity].
        by destruct (updatePattern (knowledgeBase (chatBot srv)) ["feedback"] rating).
      * unfold chat_feedback.
        destruct ((0 <=? messageId)%Z && (messageId <? Z.of_nat (length (chatLogFile srv)))%Z);
          [| reflexivity].
        cbn [snd].
        destruct (bool_decide (role <$> chatLogFile srv !! Z.to_nat messageId = Some "chatbot")
                  && negb (bool_decide (rating = ""))); [| reflexivity].
        by destruct (updatePattern (knowledgeBase (chatBot srv)) ["feedback"] rating).
    + apply Untouched; unfold admin_verify_code;
        (destruct (decide (Some telegram = ADMIN_TELEGRAM_ID)); [| reflexivity]);
        by destruct (verifyAuthCode (authCodes srv) telegram submitted now) as [[|] codes].
    + unfold admin_takeover.
      destruct (sessionRejected (adminSessionsFile srv) (bearerToken authorization) now);
        [by apply Untouched |].
      by eapply Greeted.
    + unfold admin_respond.
      destruct (sessionRejected (adminSessionsFile srv) (bearerToken authorization) now);
        [by apply Untouched |].
      by eapply Responded.
  - by apply Untouched.
  - apply Untouched; unfold admin_poll;
      by destruct (sessionRejected (adminSessionsFile srv) (bearerToken authorization) now).
  - apply Untouched; unfold admin_request_code;
      by destruct (decide (Some telegram = ADMIN_TELEGRAM_ID)).
  - apply Untouched; unfold admin_train;
      (destruct (sessionRejected (adminSessionsFile srv) (bearerToken authorization) now);
       [reflexivity |]);
      cbn [snd]; unfold loadKnowledgeBase;
      by destruct (knowledgeBaseFile (set_knowledgeBaseFile srv _)).
  - apply Untouched; unfold analytics_performance;
      by destruct (groupByClient (filterRecent clock 0 (chatLogFile srv)) ∅).
  - apply Untouched; unfold loadKnowledgeBase; by destruct (knowledgeBaseFile srv).
Qed.

End RequestFacts.

Lemma countRole_app (r : string) (l1 l2 : list Message) :
  countRole r (l1 ++ l2) = (countRole r l1 + countRole r l2)%Z.
Proof. unfold countRole. rewrite list.filter_app, length_app. lia. Qed.

Lemma countRole_one (r : string) (m : Message) :
  countRole r [m] = if decide (role m = r) then 1 else 0.
Proof.
  unfold countRole. destruct (decide (role m = r)) as [Heq | Hne].
  - by rewrite filter_cons_True.
  - by rewrite filter_cons_False.
Qed.

Lemma sumDays_swap (f : DailyAnalytics -> Z) (m : gmap string DailyAnalytics) :
  ∀ (j1 j2 : string) (z1 z2 : DailyAnalytics) (y : Z),
    j1 ≠ j2 -> m !! j1 = Some z1 -> m !! j2 = Some z2 ->
    (y + f z2 + f z1 = y + f z1 + f z2)%Z.
Proof. intros. lia. Qed.

Lemma sumDays_insert (f : DailyAnalytics -> Z) (m : gmap string DailyAnalytics)
    (k : string) (b : DailyAnalytics) :
  sumDays f (<[k := b]> m) = (sumDays f m - from_option f 0 (m !! k) + f b)%Z.
Proof.
  unfold sumDays. destruct (m !! k) as [old |] eqn:Hk; simpl.
  - rewrite <- (insert_delete_eq m k b).
    rewrite map_fold_insert_L; [| intros; lia | apply lookup_delete_eq].
    rewrite (map_fold_delete_L _ _ k old m); [lia | intros; lia | exact Hk].
  - rewrite map_fold_insert_L; [lia | intros; lia | exact Hk].
Qed.

Lemma sumDays_record (a : Analytics) (today r : string) :
  r = "chatbot" ∨ r = "ai" ∨ r = "admin" ->
  let a' := recordMessage a today r in
  sumDays total (days a') = (sumDays total (days a) + 1)%Z
  ∧ sumDays chatbot (days a')
    = (sumDays chatbot (days a) + if decide (r = "chatbot") then 1 else 0)%Z
  ∧ sumDays ai (days a') = (sumDays ai (days a) + if decide (r = "ai") then 1 else 0)%Z
  ∧ sumDays admin (days a')
    = (sumDays admin (days a) + if decide (r = "admin") then 1 else 0)%Z.
Proof.
  intros Hr. unfold recordMessage. cbn [days]. rewrite !sumDays_insert.
  destruct (days a !! today) as [b |]; simpl;
    destruct Hr as [-> | [-> | ->]]; simpl; repeat split; lia.
Qed.

Section InvariantFacts.

Variable toLowerCase : string -> string.
Variable create : string -> Try Completion.
Variable ADMIN_TELEGRAM_ID : option string.

Local Abbreviation handle' := (handle toLowerCase create ADMIN_TELEGRAM_ID).

Lemma handle_keeps_agreement (srv : Server) (req : Request) :
  logAgrees srv -> logAgrees (handle' srv req).
Proof.
  unfold logAgrees. intros (Hc & Ha & Hu & Hd & Ht).
  destruct (handle_effect toLowerCase create ADMIN_TELEGRAM_ID srv req)
    as [user bot today Hlog Huser Hbot Hrec | greeting Hlog Hrole Hdays
        | message today Hlog Hrole Hrec | Hlog Hdays].
  - rewrite Hlog, Hrec.
    destruct (sumDays_record (analyticsFile srv) today (role bot)) as (St & Sc & Sa & Sd);
      [tauto |].
    rewrite St, Sc, Sa, Sd, !countRole_app.
    change [user; bot] with ([user] ++ [bot]). rewrite !countRole_app, !countRole_one.
    rewrite Huser.
    destruct Hbot as [-> | ->]; simpl; lia.
  - rewrite Hlog, Hdays, !countRole_app, !countRole_one, Hrole. simpl. lia.
  - rewrite Hlog, Hrec.
    destruct (sumDays_record (analyticsFile srv) today "admin") as (St & Sc & Sa & Sd);
      [tauto |].
    rewrite St, Sc, Sa, Sd, !countRole_app, !countRole_one, Hrole. simpl. lia.
  - by rewrite Hlog, Hdays.
Qed.

(** X8.  The analytics agree with the chat log.  In every state reached
    from the empty files by requests served one after the other, the bot and
    AI counters summed over all days equal the numbers of bot and AI
    messages in the log, which together equal the number of user messages;
    the admin counters sum to at most the number of admin messages (takeover
    greetings are not counted); and the totals sum to the three together. *)
Theorem analytics_agree_with_log (kb : list Pattern) (threshold : Qc)
    (requests : list Request) :
  let srv := fold_left handle' requests (emptyServer kb threshold) in
  let buckets := days (analyticsFile srv) in
  let log := chatLogFile srv in
  sumDays chatbot buckets = countRole "chatbot" log
  ∧ sumDays ai buckets = countRole "ai" log
  ∧ countRole "user" log = (countRole "chatbot" log + countRole "ai" log)%Z
  ∧ (sumDays admin buckets <= countRole "admin" log)%Z
  ∧ sumDays total buckets
    = (sumDays chatbot buckets + sumDays ai buckets + sumDays admin buckets)%Z.
Proof.
  assert (logAgrees (emptyServer kb threshold)) as Hinit.
  { unfold logAgrees, sumDays, countRole. cbn. rewrite !map_fold_empty. lia. }
  revert Hinit. generalize (emptyServer kb threshold).
  induction requests as [| req requests IH]; intros srv Hsrv; [exact Hsrv |].
  cbn [fold_left]. by apply IH, handle_keeps_agreement.
Qed.

(** X9.  The chat log is append-only.  No request removes, rewrites or
    reorders a message: the log before any sequence of requests is a prefix
    of the log after it, and so what a poll returned before is a prefix of
    what the same poll returns afterwards.  One request appends at most two
    messages. *)
Theorem log_append_only (srv : Server) (requests : list Request) :
  let srv' := fold_left handle' requests srv in
  chatLogFile srv `prefix_of` chatLogFile srv'
  ∧ (∀ client after,
       newMessages (pollMessages (chatLogFile srv) client after)
       `prefix_of` newMessages (pollMessages (chatLogFile srv') client after))
  ∧ (∀ client,
       filter (fun m => clientId m = client) (chatLogFile srv)
       `prefix_of` filter (fun m => clientId m = client) (chatLogFile srv'))
  ∧ (length (chatLogFile srv') <= length (chatLogFile srv) + 2 * length requests)%nat.
Proof.
  assert (∀ s req, ∃ added, chatLogFile (handle' s req) = chatLogFile s ++ added
                            ∧ (length added <= 2)%nat) as Hstep.
  { intros s req.
    destruct (handle_effect toLowerCase create ADMIN_TELEGRAM_ID s req)
      as [user bot today Hlog _ _ _ | greeting Hlog _ _ | message today Hlog _ _ | Hlog _].
    - exists [user; bot]. split; [exact Hlog | simpl; lia].
    - exists [greeting]. split; [exact Hlog | simpl; lia].
    - exists [message]. split; [exact Hlog | simpl; lia].
    - exists []. split; [by rewrite app_nil_r | simpl; lia]. }
  assert (∃ added, chatLogFile (fold_left handle' requests srv) = chatLogFile srv ++ added
                   ∧ (length added <= 2 * length requests)%nat) as (added & Hlog & Hlen).
  { revert srv. induction requests as [| req requests IH]; intros srv.
    - exists []. split; [by rewrite app_nil_r | simpl; lia].
    - cbn [fold_left]. destruct (IH (handle' srv req)) as (more & Hmore & Hlen).
      destruct (Hstep srv req) as (one & Hone & Hlen1).
      exists (one ++ more). rewrite Hmore, Hone, <- app_assoc. split; [reflexivity |].
      rewrite length_app. simpl. lia. }
  cbn zeta. rewrite Hlog. split; [by apply prefix_app_r |].
  split; [| split].
  - intros client after. unfold pollMessages. cbn [newMessages].
    rewrite list.filter_app. by apply prefix_app_r.
  - intros client. rewrite list.filter_app. by apply prefix_app_r.
  - rewrite length_app. lia.
Qed.

End InvariantFacts.

(* ===================================================================== *)
(** ** The knowledge base under all requests *)
(* ===================================================================== *)












Section KnowledgeBaseFacts.

Variable toLowerCase : string -> string.
Variable create : string -> Try Completion.
Variable ADMIN_TELEGRAM_ID : option string.

Local Abbreviation handle' := (handle toLowerCase create ADMIN_TELEGRAM_ID).



End KnowledgeBaseFacts.


(* ===================================================================== *)
(** ** The performance report *)
(* ===================================================================== *)






Lemma groupByClient_throws (msgs : list Message) (conv0 : gmap string (list Message)) :
  (∀ k, k ∈ objectPrototypeKeys -> conv0 !! k = None) ->
  (∃ m, m ∈ msgs ∧ clientId m ∈ objectPrototypeKeys) ->
  ∃ e, groupByClient msgs conv0 = Throw e.
Proof.
  revert conv0. induction msgs as [| msg msgs IH]; intros conv0 Hproto (m & Hm & Hk).
  - by apply elem_of_nil in Hm.
  - cbn [groupByClient]. unfold js_get.
    destruct (decide (clientId msg ∈ objectPrototypeKeys)) as [Hin | Hnot].
    + rewrite (Hproto _ Hin), bool_decide_eq_true_2 by done. by eexists.
    + assert (∃ m, m ∈ msgs ∧ clientId m ∈ objectPrototypeKeys) as Hlater.
      { apply elem_of_cons in Hm as [-> | Hm]; [done | by exists m]. }
      destruct (conv0 !! clientId msg) as [c |] eqn:Hc.
      * apply IH; [| exact Hlater].
        intros k Hk'. rewrite lookup_insert_ne; [by apply Hproto | congruence].
      * rewrite bool_decide_eq_false_2 by done. apply IH; [| exact Hlater].
        intros k Hk'. rewrite lookup_insert_ne; [by apply Hproto | congruence].
Qed.

Lemma filterRecent_elem (clock : nat -> Z) (start : nat) (log : list Message) (msg : Message) :
  msg ∈ filterRecent clock start log
  <-> ∃ i, log !! i = Some msg ∧ clock (start + i)%nat - 24 * 60 * 60 * 1000 < timestamp msg.
Proof.
  revert start. induction log as [| m log IH]; intros start; simpl.
  - split; [intros H; by apply elem_of_nil in H | by intros (i & H & _)].
  - rewrite elem_of_app, IH. split.
    + intros [Hhere | (i & Hi & Hrecent)].
      * destruct (decide (clock start - 24 * 60 * 60 * 1000 < timestamp m)) as [Hr | Hr];
          [| by apply elem_of_nil in Hhere].
        apply list_elem_of_singleton in Hhere as ->.
        exists 0%nat. by rewrite Nat.add_0_r.
      * exists (S i). split; [exact Hi |].
        by replace (start + S i)%nat with (S start + i)%nat by lia.
    + intros ([| i] & Hi & Hrecent).
      * left. simpl in Hi. injection Hi as ->. rewrite Nat.add_0_r in Hrecent.
        rewrite decide_True by done. apply list_elem_of_here.
      * right. exists i. split; [exact Hi |].
        by replace (S start + i)%nat with (start + S i)%nat by lia.
Qed.

Lemma empty_no_proto (k : string) :
  k ∈ objectPrototypeKeys -> (∅ : gmap string (list Message)) !! k = None.
Proof. intros _. apply lookup_empty. Qed.

(** X11.  The performance report fails on a client id that names an
    inherited property.  When the log holds a message of the last 24 hours
    whose client id is [constructor], [toString], [__proto__] or another
    name every object inherits, grouping the messages throws, and the reply
    is the status 500 with [Could not fetch performance data]; the state is
    left as it was.  The takeover and respond handlers store such an id as
    it is given. *)
Theorem performance_inherited_client (srv : Server) (clock : nat -> Z)
    (today : string) (now_reply : Z) (i : nat) (msg : Message)
    (Hstored : chatLogFile srv !! i = Some msg)
    (Hrecent : clock i - 24 * 60 * 60 * 1000 < timestamp msg)
    (Hname : clientId msg ∈ objectPrototypeKeys) :
  analytics_performance srv clock today now_reply
  = (Error 500 "Could not fetch performance data", srv).
Proof.
  unfold analytics_performance.
  destruct (groupByClient_throws (filterRecent clock 0 (chatLogFile srv)) ∅
              empty_no_proto) as [e He].
  - exists msg. split; [| exact Hname]. apply filterRecent_elem. by exists i.
  - cbn zeta. rewrite He. reflexivity.
Qed.





Lemma performance_inherited_client_witness :
  let srv :=
    snd (admin_takeover (emptyServer [] (num 7 10)) (Some "Bearer constructor")
                        "constructor" 100 100 100) in
  chatLogFile srv = [mkMessage 100 "constructor" "admin" greetingText (Some 1%Qc) None]
  ∧ analytics_performance srv (fun _ => 200) "2024-05-01" 300
    = (Error 500 "Could not fetch performance data", srv).
Proof.
  intros srv. split; [reflexivity |].
  apply (performance_inherited_client srv (fun _ => 200) "2024-05-01" 300 0
           (mkMessage 100 "constructor" "admin" greetingText (Some 1%Qc) None)).
  - reflexivity.
  - reflexivity.
  - apply list_elem_of_here.
Defined.




(* ===================================================================== *)
(** ** Takeovers and sessions over time *)
(* ===================================================================== *)

Section TakeoverFacts.

Variable toLowerCase : string -> string.
Variable create : string -> Try Completion.
Variable ADMIN_TELEGRAM_ID : option string.

Local Abbreviation handle' := (handle toLowerCase create ADMIN_TELEGRAM_ID).

(** The reply of the send handler is a function of the brain alone. *)
Lemma chat_send_reply_brain (srv1 srv2 : Server) (client message : string)
    (now_user now_bot : Z) (today : string) (now_reply : Z) :
  chatBot srv1 = chatBot srv2 ->
  fst (chat_send toLowerCase create srv1 client message now_user now_bot today now_reply)
  = fst (chat_send toLowerCase create srv2 client message now_user now_bot today now_reply).
Proof.
  intros Hbrain. unfold chat_send, send_begin. rewrite Hbrain.
  destruct (shouldEscalate (analyzeMessage toLowerCase (chatBot srv2) message));
    [reflexivity |].
  destruct (amatch (analyzeMessage toLowerCase (chatBot srv2) message)); reflexivity.
Qed.

Lemma admin_takeover_brain (srv : Server) (authorization : option string)
    (conversationId : string) (now now_takeover now_message : Z) :
  chatBot (snd (admin_takeover srv authorization conversationId now now_takeover now_message))
  = chatBot srv.
Proof.
  unfold admin_takeover.
  by destruct (sessionRejected (adminSessionsFile srv) (bearerToken authorization) now).
Qed.

(** X13.  A takeover does not stop the automatic answers.  A send request
    of the conversation that was taken over gets the very reply it would have
    got without the takeover, and the bot or AI message is appended to the
    log after the admin's greeting: no handler reads the takeover records. *)
Theorem takeover_keeps_automation (srv : Server) (authorization : option string)
    (conversationId : string) (now now_takeover now_message : Z)
    (message : string) (now_user now_bot : Z) (today : string) (now_reply : Z) :
  let taken :=
    snd (admin_takeover srv authorization conversationId now now_takeover now_message) in
  fst (chat_send toLowerCase create taken conversationId message
                 now_user now_bot today now_reply)
  = fst (chat_send toLowerCase create srv conversationId message
                   now_user now_bot today now_reply)
  ∧ ∃ bot,
      chatLogFile (snd (chat_send toLowerCase create taken conversationId message
                                  now_user now_bot today now_reply))
      = chatLogFile taken
        ++ [mkMessage now_user conversationId "user" message None None; bot]
      ∧ (role bot = "chatbot" ∨ role bot = "ai").
Proof.
  intros taken. split.
  - apply chat_send_reply_brain, admin_takeover_brain.
  - destruct (chat_send_effect toLowerCase create taken conversationId message
                now_user now_bot today now_reply) as (bot & Hlog & Hrole & _).
    by exists bot.
Qed.

Lemma js_set_lookup {A} (obj : gmap string A) (key : string) (v : A) (k : string) :
  js_set obj key v !! k = obj !! k
  ∨ (k = key ∧ js_set obj key v !! k = Some v).
Proof.
  unfold js_set. destruct (decide (k = key)) as [-> | Hne].
  - destruct (decide (key = "__proto__")).
    + destruct (obj !! key) eqn:Hk; [right; by rewrite lookup_insert_eq | left; by rewrite Hk].
    + right. by rewrite lookup_insert_eq.
  - left. destruct (decide (key = "__proto__")).
    + destruct (obj !! key) eqn:Hk; [by rewrite lookup_insert_ne | done].
    + by rewrite lookup_insert_ne.
Qed.

Lemma sessionRejected_lookup (s1 s2 : gmap string AdminSession) (t : string) (now : Z) :
  s1 !! t = s2 !! t -> sessionRejected s1 t now = sessionRejected s2 t now.
Proof. intros H. unfold sessionRejected, js_get. by rewrite H. Qed.

(** One request against the stored sessions and takeover records. *)
Lemma handle_records (srv : Server) (req : Request) :
  (∀ t, issuedToken req ≠ Some t ->
        adminSessionsFile (handle' srv req) !! t = adminSessionsFile srv !! t)
  ∧ (∀ c, takeoversOf (handle' srv req) !! c = takeoversOf srv !! c
          ∨ ∃ r, takeoversOf (handle' srv req) !! c = Some r ∧ status r = "active").
Proof.
  assert (∀ srv', adminSessionsFile srv' = adminSessionsFile srv ->
                  adminTakeovers (analyticsFile srv') = adminTakeovers (analyticsFile srv) ->
                  (∀ t, issuedToken req ≠ Some t ->
                        adminSessionsFile srv' !! t = adminSessionsFile srv !! t)
                  ∧ (∀ c, takeoversOf srv' !! c = takeoversOf srv !! c
                          ∨ ∃ r, takeoversOf srv' !! c = Some r ∧ status r = "active"))
    as Hsame.
  { intros srv' Hs Ht. split; [intros t _; by rewrite Hs |].
    intros c. left. unfold takeoversOf. by rewrite Ht. }
  destruct req as [op | client | authorization after now | telegram digits now delivered
                   | authorization kws answer conf now | clock today now_reply |];
    cbn [handle].
  - destruct op; cbn [perform].
    + destruct (chat_send_effect toLowerCase create srv client message
                  now_user now_bot today now_reply) as (bot & _ & _ & Hrec & Hs & _).
      apply Hsame; [exact Hs |]. by rewrite Hrec.
    + by apply Hsame.
    + unfold chat_feedback.
      destruct ((0 <=? messageId)%Z && (messageId <? Z.of_nat (length (chatLogFile srv)))%Z);
        [| by apply Hsame].
      cbn [snd].
      destruct (bool_decide (role <$> chatLogFile srv !! Z.to_nat messageId = Some "chatbot")
                && negb (bool_decide (rating = ""))); [| by apply Hsame].
      destruct (updatePattern (knowledgeBase (chatBot srv)) ["feedback"] rating);
        by apply Hsame.
    + unfold admin_verify_code.
      destruct (decide (Some telegram = ADMIN_TELEGRAM_ID)); [| by apply Hsame].
      destruct (verifyAuthCode (authCodes srv) telegram submitted now) as [[|] codes];
        [| by apply Hsame].
      split; [| intros c; by left].
      intros t Ht. cbn.
      destruct (js_set_lookup (adminSessionsFile srv) sessionToken
                  (mkSession telegram now_created (now_expires + 24 * 60 * 60 * 1000)) t)
        as [Heq | [-> _]]; [exact Heq | by destruct Ht].
    + unfold admin_takeover.
      destruct (sessionRejected (adminSessionsFile srv) (bearerToken authorization) now);
        [by apply Hsame |].
      split; [intros t _; reflexivity |].
      intros c. unfold takeoversOf. cbn.
      destruct (js_set_lookup (default ∅ (adminTakeovers (analyticsFile srv))) conversationId
                  (mkTakeover now_takeover
                     (sessionTelegramId (adminSessionsFile srv) (bearerToken authorization))
                     "active") c) as [Heq | [-> Heq]]; [by left | right].
      eexists. split; [exact Heq | reflexivity].
    + unfold admin_respond.
      destruct (sessionRejected (adminSessionsFile srv) (bearerToken authorization) now);
        by apply Hsame.
  - by apply Hsame.
  - unfold admin_poll.
    destruct (sessionRejected (adminSessionsFile srv) (bearerToken authorization) now);
      by apply Hsame.
  - unfold admin_request_code.
    destruct (decide (Some telegram = ADMIN_TELEGRAM_ID)); [| by apply Hsame].
    destruct (sendAuthCode (authCodes srv) telegram digits now delivered); by apply Hsame.
  - unfold admin_train.
    destruct (sessionRejected (adminSessionsFile srv) (bearerToken authorization) now);
      [by apply Hsame |].
    cbn [snd]. unfold loadKnowledgeBase.
    destruct (knowledgeBaseFile (set_knowledgeBaseFile srv _)); by apply Hsame.
  - unfold analytics_performance.
    destruct (groupByClient (filterRecent clock 0 (chatLogFile srv)) ∅); by apply Hsame.
  - unfold loadKnowledgeBase. destruct (knowledgeBaseFile srv); by apply Hsame.
Qed.

(** X14.  A takeover is never released.  Under any sequence of requests a
    conversation that has a takeover record keeps one, and a record that was
    written or replaced has the status [active]: nothing ends a takeover or
    gives it another status. *)
Theorem takeovers_never_released (srv : Server) (requests : list Request) :
  let srv' := fold_left handle' requests srv in
  (∀ c, is_Some (takeoversOf srv !! c) -> is_Some (takeoversOf srv' !! c))
  ∧ (∀ c r, takeoversOf srv' !! c = Some r ->
            takeoversOf srv !! c = Some r ∨ status r = "active").
Proof.
  revert srv. induction requests as [| req requests IH]; intros srv; cbn [fold_left].
  - split; [done | intros c r Hr; by left].
  - destruct (IH (handle' srv req)) as [Hkept Hactive].
    destruct (handle_records srv req) as [_ Hstep]. split.
    + intros c Hc. apply Hkept.
      destruct (Hstep c) as [-> | (r & -> & _)]; [exact Hc | by eexists].
    + intros c r Hr. destruct (Hactive c r Hr) as [Hone | Hnew]; [| by right].
      destruct (Hstep c) as [Heq | (r' & Hr' & Hst)].
      * left. by rewrite <- Heq.
      * right. rewrite Hone in Hr'. by injection Hr' as ->.
Qed.

(** X15.  A session is never revoked.  Under any sequence of requests
    none of which issues the same token anew, the session stored under a
    token stays as it was, so the admin check answers for it as before at
    every time: only its expiry ends it. *)
Theorem sessions_never_revoked (srv : Server) (requests : list Request) (token : string)
    (Hfresh : ∀ req, req ∈ requests -> issuedToken req ≠ Some token) :
  let srv' := fold_left handle' requests srv in
  adminSessionsFile srv' !! token = adminSessionsFile srv !! token
  ∧ ∀ now, sessionRejected (adminSessionsFile srv') token now
           = sessionRejected (adminSessionsFile srv) token now.
Proof.
  cbn zeta.
  assert (adminSessionsFile (fold_left handle' requests srv) !! token
          = adminSessionsFile srv !! token) as Hkept.
  { revert srv. induction requests as [| req requests IH]; intros srv; cbn [fold_left];
      [reflexivity |].
    rewrite IH by (intros r Hr; by apply Hfresh, list_elem_of_further).
    destruct (handle_records srv req) as [Hs _]. apply Hs, Hfresh, list_elem_of_here. }
  split; [exact Hkept |]. intros now. by apply sessionRejected_lookup.
Qed.

End TakeoverFacts.

Lemma sessions_never_revoked_witness :
  let srv :=
    set_adminSessionsFile (emptyServer defaultPatterns (num 7 10))
                          {[ "token" := mkSession "42" 0 1000 ]} in
  let requests :=
    [ReqRequestCode "42" "123456" 10 true;
     Claimed (OpVerifyCode "42" "123456" 20 "other" 20 20);
     Claimed (OpTakeover (Some "Bearer token") "c1" 30 30 30);
     Claimed (OpSend "c1" "merhaba" 40 41 "2024-05-01" 42)] in
  adminSessionsFile
    (fold_left (handle asciiLower (fun _ => Throw "ETIMEDOUT") (Some "42")) requests srv)
    !! "token"
  = Some (mkSession "42" 0 1000).
Proof.
  intros srv requests.
  destruct (sessions_never_revoked asciiLower (fun _ => Throw "ETIMEDOUT") (Some "42")
              srv requests "token") as [Hkept _].
  - intros req Hreq. unfold requests in Hreq.
    repeat (apply elem_of_cons in Hreq as [-> | Hreq]); try discriminate.
    by apply elem_of_nil in Hreq.
  - rewrite Hkept. reflexivity.
Defined.


(* ===================================================================== *)
(** ** Feedback and training *)
(* ===================================================================== *)

Lemma updatePattern_others (kb kb' : list Pattern) (kws : list string) (f : string) :
  updatePattern kb kws f = Some kb' ->
  ∀ i p, kb !! i = Some p -> keywords p ≠ kws -> kb' !! i = Some p.
Proof.
  unfold updatePattern. intros Hup i p Hp Hne.
  destruct (list_find (fun p => keywords p = kws) kb) as [[index q] |] eqn:Hfind;
    [| discriminate].
  injection Hup as <-. apply list_find_Some in Hfind as (Hq & Hkw & _).
  destruct (decide (i = index)) as [-> | Hi].
  - rewrite Hp in Hq. injection Hq as ->. by destruct Hne.
  - by rewrite list_lookup_insert_ne.
Qed.

(** X16.  A rating never reaches the pattern that gave the answer.
    Whatever message is rated, every pattern whose keyword list is not
    exactly [feedback] is left as it was; the log and the day buckets are
    unchanged.  For an index inside the log the rating is stored as one more
    feedback entry and the reply is [Feedback received]; for any other index
    the reply is 404 and nothing changes. *)
Theorem feedback_spares_patterns (srv : Server) (messageId : Z) (rating : string)
    (comment client : option string) (now : Z) :
  let result := chat_feedback srv messageId rating comment client now in
  let srv' := snd result in
  (∀ i p, knowledgeBase (chatBot srv) !! i = Some p ->
          keywords p ≠ ["feedback"] ->
          knowledgeBase (chatBot srv') !! i = Some p)
  ∧ chatLogFile srv' = chatLogFile srv
  ∧ days (analyticsFile srv') = days (analyticsFile srv)
  ∧ (is_Some (chatLogFile srv !! Z.to_nat messageId) ∧ 0 <= messageId ->
     fst result = Ok "Feedback received"
     ∧ feedback (analyticsFile srv')
       = Some (default [] (feedback (analyticsFile srv))
               ++ [mkFeedback messageId rating comment now client]))
  ∧ (¬ (is_Some (chatLogFile srv !! Z.to_nat messageId) ∧ 0 <= messageId) ->
     result = (Error 404 "Message not found", srv)).
Proof.
  cbn zeta. unfold chat_feedback.
  destruct ((0 <=? messageId)%Z && (messageId <? Z.of_nat (length (chatLogFile srv)))%Z)
    eqn:Hrange.
  - apply andb_true_iff in Hrange as [Hlo Hhi].
    apply Z.leb_le in Hlo. apply Z.ltb_lt in Hhi.
    assert (is_Some (chatLogFile srv !! Z.to_nat messageId) ∧ 0 <= messageId) as Hin.
    { split; [| exact Hlo]. apply lookup_lt_is_Some. lia. }
    cbn [fst snd].
    destruct (bool_decide (role <$> chatLogFile srv !! Z.to_nat messageId = Some "chatbot")
              && negb (bool_decide (rating = ""))).
    + destruct (updatePattern (knowledgeBase (chatBot srv)) ["feedback"] rating)
        as [kb' |] eqn:Hup; cbn.
      * split; [intros i p Hp Hne; by eapply updatePattern_others |].
        do 3 (split; [done |]). intros Hout. by destruct Hout.
      * do 4 (split; [done |]). intros Hout. by destruct Hout.
    + cbn. do 4 (split; [done |]). intros Hout. by destruct Hout.
  - cbn [fst snd]. do 3 (split; [done |]).
    split; [| done]. intros [Hsome Hlo]. exfalso. apply lookup_lt_is_Some in Hsome.
    apply andb_false_iff in Hrange as [Hr | Hr];
      [apply Z.leb_gt in Hr | apply Z.ltb_ge in Hr]; lia.
Qed.

Lemma Qc_lt_irrefl (x : Qc) : ¬ (x < x)%Qc.
Proof. intros H. by apply Qclt_not_eq in H. Qed.

Section TrainFacts.

Variable toLowerCase : string -> string.
Variable create : string -> Try Completion.

Lemma analyzeMessage_at_least (brain : ChatBotBrain) (message : string) (q : Pattern) :
  q ∈ knowledgeBase brain ->
  (weightedConfidence toLowerCase message q
   ≤ aconfidence (analyzeMessage toLowerCase brain message))%Qc.
Proof.
  intros Hq.
  destruct (analyzeMessage_cases toLowerCase brain message)
    as [[Heq Hnone] | (before & p & after & Hkb & Heq & Hpos & Hbefore & Hafter)].
  - assert (aconfidence (analyzeMessage toLowerCase brain message) = 0%Qc) as ->
      by exact (f_equal snd Heq).
    by apply Hnone.
  - assert (aconfidence (analyzeMessage toLowerCase brain message)
            = weightedConfidence toLowerCase message p) as ->
      by exact (f_equal snd Heq).
    rewrite Hkb in Hq.
    apply elem_of_app in Hq as [Hq | Hq]; [by apply Qclt_le_weak, Hbefore |].
    apply elem_of_cons in Hq as [-> | Hq]; [apply Qcle_refl | by apply Hafter].
Qed.

Lemma analyzeMessage_positive (brain : ChatBotBrain) (message : string) :
  (0 < aconfidence (analyzeMessage toLowerCase brain message))%Qc ->
  ∃ m, amatch (analyzeMessage toLowerCase brain message) = Some m
       ∧ pattern m ∈ knowledgeBase brain.
Proof.
  intros Hpos.
  destruct (analyzeMessage_cases toLowerCase brain message)
    as [[Heq Hnone] | (before & p & after & Hkb & Heq & _)].
  - assert (aconfidence (analyzeMessage toLowerCase brain message) = 0%Qc) as Hc
      by exact (f_equal snd Heq).
    rewrite Hc in Hpos. by apply Qc_lt_irrefl in Hpos.
  - assert (amatch (analyzeMessage toLowerCase brain message)
            = Some (mkMatched p (weightedConfidence toLowerCase message p))) as Hm
      by exact (f_equal fst Heq).
    eexists. split; [exact Hm |]. cbn. rewrite Hkb.
    apply elem_of_app. right. apply list_elem_of_here.
Qed.

Lemma Qc_ratio_one (n : Z) (c : Qc) :
  0 < n -> (Qc_of_Z n / Qc_of_Z n * c)%Qc = c.
Proof.
  intros Hn. unfold Qcdiv. rewrite Qcmult_inv_r, Qcmult_1_l; [reflexivity |].
  intros H0. apply (f_equal this) in H0. rewrite Qc_this_of_Z in H0.
  change (this 0%Qc) with (inject_Z 0) in H0. injection H0 as H0. lia.
Qed.

Lemma weighted_all (message : string) (p : Pattern) :
  keywords p ≠ [] ->
  (∀ k, k ∈ keywords p -> includes (toLowerCase message) (toLowerCase k) = true) ->
  weightedConfidence toLowerCase message p = confidence p.
Proof.
  intros Hne Hall. unfold weightedConfidence. rewrite keywordScore_count.
  assert (filter (fun k => includes (toLowerCase message) (toLowerCase k) = true)
                 (keywords p) = keywords p) as ->.
  { clear Hne. induction (keywords p) as [| k kws IH]; [reflexivity |].
    rewrite filter_cons_True by (apply Hall, list_elem_of_here).
    f_equal. apply IH. intros k' Hk'. by apply Hall, list_elem_of_further. }
  apply Qc_ratio_one. destruct (keywords p); [done | simpl; lia].
Qed.

(** X17.  A trained pattern is taken into account at once.  An accepted
    train request replies with the index the new pattern gets, the end of
    the knowledge base on file, and the brain holds it there.  A message
    that contains every keyword of the new pattern, whose confidence is
    positive and not below the threshold, is then answered by the bot tier,
    with the response of some pattern of the knowledge base and a confidence
    not below the trained one. *)
Theorem trained_pattern_answers (srv : Server) (authorization : option string)
    (kws : list string) (answer : string) (given : option Qc) (now : Z)
    (client message : string) (now_user now_bot : Z) (today : string) (now_reply : Z)
    (Haccepted :
       sessionRejected (adminSessionsFile srv) (bearerToken authorization) now = false)
    (Hkws : kws ≠ [])
    (Hoccur : ∀ k, k ∈ kws -> includes (toLowerCase message) (toLowerCase k) = true)
    (Hpositive : (0 < default (num 8 10) given)%Qc)
    (Hthreshold :
       (confidenceThreshold (chatBot srv) ≤ default (num 8 10) given)%Qc) :
  let trained := admin_train srv authorization kws answer given now in
  let patternId := length (knowledgeBaseFile srv) in
  fst trained = Ok (Z.of_nat patternId)
  ∧ knowledgeBase (chatBot (snd trained)) !! patternId
    = Some (mkPattern kws answer (default (num 8 10) given) 0)
  ∧ ∃ resp srv',
      chat_send toLowerCase create (snd trained) client message
                now_user now_bot today now_reply = (Ok resp, srv')
      ∧ reply_role resp = "chatbot"
      ∧ (default (num 8 10) given ≤ reply_confidence resp)%Qc
      ∧ ∃ p, p ∈ knowledgeBase (chatBot (snd trained)) ∧ reply resp = response p.
Proof.
  cbn zeta. unfold admin_train. rewrite Haccepted. cbn [fst snd].
  set (c := default (num 8 10) given) in *.
  set (new := mkPattern kws answer c 0).
  assert (chatBot (loadKnowledgeBase
                     (set_knowledgeBaseFile srv (knowledgeBaseFile srv ++ [new])))
          = mkBrain (knowledgeBaseFile srv ++ [new]) (confidenceThreshold (chatBot srv)))
    as Hbrain.
  { unfold loadKnowledgeBase. cbn.
    destruct (knowledgeBaseFile srv ++ [new]) eqn:Hfile; [| reflexivity].
    by apply app_nil in Hfile as [_ ?]. }
  set (trained := loadKnowledgeBase _) in *.
  split; [f_equal; rewrite length_app; simpl; lia |].
  split.
  { rewrite Hbrain. cbn. rewrite lookup_app_r by lia.
    by rewrite Nat.sub_diag. }
  pose proof (analyzeMessage_at_least (chatBot trained) message new) as Hleast.
  rewrite weighted_all in Hleast by done.
  specialize (Hleast ltac:(rewrite Hbrain; cbn; apply elem_of_app; right;
                           apply list_elem_of_here)).
  change (confidence new) with c in Hleast.
  assert (0 < aconfidence (analyzeMessage toLowerCase (chatBot trained) message))%Qc
    as Hpos by (eapply Qclt_le_trans; [exact Hpositive | exact Hleast]).
  destruct (analyzeMessage_positive _ _ Hpos) as (m & Hm & Hin).
  assert (shouldEscalate (analyzeMessage toLowerCase (chatBot trained) message) = false)
    as Hesc.
  { apply not_true_is_false. intros Htrue. apply shouldEscalate_iff in Htrue.
    rewrite Hbrain in Htrue at 2. cbn in Htrue.
    apply (Qc_lt_irrefl c). eapply Qcle_lt_trans; [exact Hleast |].
    eapply Qclt_le_trans; [exact Htrue | exact Hthreshold]. }
  destruct (chat_send_bot toLowerCase create trained client message
              now_user now_bot today now_reply m Hesc Hm) as (srv' & Hsend & _).
  eexists _, srv'. split; [exact Hsend |]. split; [reflexivity |].
  split.
  - change (c ≤ num_or (aconfidence (analyzeMessage toLowerCase (chatBot trained) message))
                       (num 85 100))%Qc.
    rewrite num_or_nonzero; [exact Hleast |].
    intros H0. rewrite H0 in Hpos. by apply Qc_lt_irrefl in Hpos.
  - by exists (pattern m).
Qed.

End TrainFacts.

Lemma trained_pattern_answers_witness :
  let srv :=
    set_adminSessionsFile (emptyServer defaultPatterns (num 7 10))
                          {[ "token" := mkSession "42" 0 1000 ]} in
  let trained :=
    admin_train srv (Some "Bearer token") ["kargo"] "Kargo iki gün içinde gelir."
                (Some (num 9 10)) 500 in
  fst trained = Ok 5
  ∧ ∃ resp srv',
      chat_send asciiLower (fun _ => Throw "ETIMEDOUT") (snd trained) "c1" messageKargo
                1 2 "2024-05-01" 3 = (Ok resp, srv')
      ∧ reply_role resp = "chatbot".
Proof.
  intros srv trained.
  destruct (trained_pattern_answers asciiLower (fun _ => Throw "ETIMEDOUT") srv
              (Some "Bearer token") ["kargo"] "Kargo iki gün içinde gelir."
              (Some (num 9 10)) 500 "c1" messageKargo 1 2 "2024-05-01" 3)
    as (Hid & _ & resp & srv' & Hsend & Hrole & _).
  - reflexivity.
  - discriminate.
  - intros k Hk. apply list_elem_of_singleton in Hk as ->. vm_compute. reflexivity.
  - vm_compute. reflexivity.
  - vm_compute. discriminate.
  - split; [exact Hid |]. by exists resp, srv'.
Defined.


(* ===================================================================== *)
(** ** An admin's message during a pending send *)
(* ===================================================================== *)

Section OverwriteFacts.

Variable toLowerCase : string -> string.
Variable create : string -> Try Completion.

Lemma send_begin_files (srv : Server) (client message : string) (now : Z) :
  adminSessionsFile (snd (send_begin toLowerCase srv client message now))
  = adminSessionsFile srv
  ∧ analyticsFile (snd (send_begin toLowerCase srv client message now))
    = analyticsFile srv.
Proof.
  unfold send_begin.
  destruct (shouldEscalate (analyzeMessage toLowerCase (chatBot srv) message)); [done |].
  destruct (amatch (analyzeMessage toLowerCase (chatBot srv) message)) as [m |]; [| done].
  by destruct (updatePattern (knowledgeBase (chatBot srv)) (keywords (pattern m)) "positive").
Qed.

(** X18.  An admin's message posted while a send request is pending is
    overwritten.  The send request has read the log before the admin's
    response is appended and writes its own copy afterwards: the response is
    acknowledged and counted in the day's admin figure, but the log ends as
    the log the send request read followed by its two messages, without the
    admin's message. *)
Theorem respond_during_send_overwritten (srv : Server) (client message : string)
    (now_user : Z) (authorization : option string) (conversationId text : string)
    (now now_message : Z) (today : string) (now_bot : Z) (today' : string)
    (now_reply : Z)
    (Haccepted :
       sessionRejected (adminSessionsFile srv) (bearerToken authorization) now = false) :
  let begun := send_begin toLowerCase srv client message now_user in
  let responded :=
    admin_respond (snd begun) authorization conversationId text now now_message today in
  let finished :=
    send_finish create (snd responded) (fst begun) now_bot today' now_reply in
  let adminMessage :=
    mkMessage now_message conversationId "admin" text (Some 1%Qc)
              (sessionTelegramId (adminSessionsFile srv) (bearerToken authorization)) in
  fst responded = Ok now_message
  ∧ chatLogFile (snd responded) = chatLogFile srv ++ [adminMessage]
  ∧ ∃ bot,
      chatLogFile (snd finished)
      = chatLogFile srv ++ [mkMessage now_user client "user" message None None; bot]
      ∧ (role bot = "chatbot" ∨ role bot = "ai")
      ∧ (adminMessage ∉ chatLogFile srv -> adminMessage ∉ chatLogFile (snd finished))
      ∧ analyticsFile (snd finished)
        = recordMessage (recordMessage (analyticsFile srv) today "admin")
                        today' (role bot).
Proof.
  intros begun responded finished adminMessage.
  destruct (send_begin_log toLowerCase srv client message now_user) as (Hp & _ & Hlog).
  destruct (send_begin_files srv client message now_user) as [Hs Ha].
  fold begun in Hp, Hlog, Hs, Ha.
  assert (responded
          = (Ok now_message,
             set_analyticsFile
               (set_chatLogFile (snd begun) (chatLogFile (snd begun) ++ [adminMessage]))
               (recordMessage (analyticsFile (snd begun)) today "admin"))) as Hresp.
  { unfold responded, admin_respond. rewrite Hs, Haccepted. reflexivity. }
  split; [by rewrite Hresp |].
  split; [rewrite Hresp; cbn; by rewrite Hlog |].
  destruct (send_finish_log create (snd responded) (fst begun) now_bot today' now_reply)
    as (bot & Hfin & _ & _ & Hrole).
  fold finished in Hfin.
  assert (analyticsFile (snd finished)
          = recordMessage (analyticsFile (snd responded)) today'
              (match pending_answer (fst begun) with Some _ => "chatbot" | None => "ai" end))
    as Hrec by (unfold finished, send_finish; by destruct (pending_answer (fst begun))).
  assert (role bot
          = match pending_answer (fst begun) with Some _ => "chatbot" | None => "ai" end)
    as Hbot.
  { assert (list.last (chatLogFile (snd finished)) = Some bot) as Hlast
      by (rewrite Hfin; apply last_snoc).
    unfold finished, send_finish in Hlast.
    destruct (pending_answer (fst begun)); cbn in Hlast;
      rewrite last_snoc in Hlast; by injection Hlast as <-. }
  exists bot. rewrite Hfin, Hp, <- app_assoc. split; [reflexivity |].
  split; [exact Hrole |]. split.
  - intros Hnot Hin. apply elem_of_app in Hin as [Hin | Hin]; [done |].
    apply elem_of_cons in Hin as [Heq | Hin]; [discriminate |].
    apply list_elem_of_singleton in Hin. subst bot.
    destruct Hrole as [Hr | Hr]; discriminate.
  - rewrite Hrec, Hbot, Hresp. cbn. by rewrite Ha.
Qed.

End OverwriteFacts.

Lemma respond_during_send_overwritten_witness :
  let srv :=
    set_adminSessionsFile (emptyServer defaultPatterns (num 7 10))
                          {[ "token" := mkSession "42" 0 1000 ]} in
  let begun := send_begin asciiLower srv "c1" messageKargo 10 in
  let responded :=
    admin_respond (snd begun) (Some "Bearer token") "c1" "Yarın gelir." 20 21 "2024-05-01" in
  let finished :=
    send_finish (fun _ => Throw "ETIMEDOUT") (snd responded) (fst begun)
                30 "2024-05-01" 31 in
  fst responded = Ok 21
  ∧ length (chatLogFile (snd finished)) = 2%nat
  ∧ admin (dayStats (analyticsFile (snd finished)) "2024-05-01") = 1.
Proof.
  intros srv begun responded finished.
  destruct (respond_during_send_overwritten asciiLower (fun _ => Throw "ETIMEDOUT") srv
              "c1" messageKargo 10 (Some "Bearer token") "c1" "Yarın gelir." 20 21
              "2024-05-01" 30 "2024-05-01" 31 eq_refl)
    as (Hreply & _ & bot & Hlog & _ & _ & _).
  split; [exact Hreply |]. split; [| vm_compute; reflexivity].
  fold srv begun responded finished in Hlog. by rewrite Hlog.
Defined.
